(** * student-data-api: the request signer and the HTTP client

    A shallow embedding of [checksum.py] (class [checksum]) and [api.py]
    (class [API]), with the library routines they call: [hashlib.sha1]
    (FIPS 180-4), [hmac.new] (RFC 2104, as Python's [hmac] module computes
    it), [base64.b64encode] (RFC 4648), and the [str] methods [replace],
    [lower], [upper], [strip] and [encode].

    Conventions.
    - A Python [str] is a Rocq [string], one character per code point; the
      model covers the code points U+0000 to U+00FF.  Text that UTF-8
      cannot encode (a lone surrogate), on which [encode] raises, is outside
      the model.
    - [bytes] are lists of integers in 0..255; 32-bit words are integers
      with the wrap-around written out.
    - A Python [dict] is an association list in insertion order.
    - The two effects of the program, reading the clock and calling the
      HTTP session, are recorded in a trace of events. *)

From Stdlib Require Import ZArith List Bool Ascii String Lia.
Import ListNotations.

Set Warnings "-register-all".

Local Open Scope string_scope.
Local Open Scope Z_scope.

(** ** Python [str] and [bytes] *)

Module Text.

Definition bytes := list Z.

(** [ord(c)] *)
Definition ord (c : ascii) : Z := Z.of_N (N_of_ascii c).

(** [chr(n)] for [0 <= n < 256] *)
Definition chr (n : Z) : ascii := ascii_of_N (Z.to_N n).

(** [s.encode('utf-8')]: one byte below U+0080, two bytes from U+0080 to
    U+00FF. *)
Definition encode_char (c : ascii) : bytes :=
  let n := ord c in
  if n <? 128 then [n]
  else [Z.lor 192 (Z.shiftr n 6); Z.lor 128 (Z.land n 63)].

Fixpoint encode_utf8 (s : string) : bytes :=
  match s with
  | EmptyString => []
  | String c s' => (encode_char c ++ encode_utf8 s')%list
  end.

(** [b.decode('utf-8')] on bytes below 128 (ASCII text), where it yields one
    character per byte. *)
Fixpoint decode_ascii (b : bytes) : string :=
  match b with
  | [] => EmptyString
  | x :: b' => String (chr x) (decode_ascii b')
  end.

(** [s.replace(old, new)], every occurrence, scanning from the left without
    overlaps.  [skip] counts the characters of a match still to be dropped. *)
Fixpoint replace_from (old new : string) (skip : nat) (s : string) : string :=
  match s with
  | EmptyString => EmptyString
  | String c s' =>
      match skip with
      | S k => replace_from old new k s'
      | O =>
          if prefix old s
          then new ++ replace_from old new (Nat.pred (length old)) s'
          else String c (replace_from old new 0 s')
      end
  end.

(** With an empty [old], Python puts [new] before every character and at
    the end. *)
Fixpoint interleave (new s : string) : string :=
  match s with
  | EmptyString => new
  | String c s' => new ++ String c (interleave new s')
  end.

Definition replace (old new s : string) : string :=
  match old with
  | EmptyString => interleave new s
  | String _ _ => replace_from old new 0 s
  end.

(** [c.lower()] in U+0000..U+00FF: A-Z, and the capital letters U+00C0 to
    U+00DE without the multiplication sign U+00D7. *)
Definition lower_char (c : ascii) : ascii :=
  let n := ord c in
  if ((65 <=? n) && (n <=? 90)) || ((192 <=? n) && (n <=? 222) && negb (n =? 215))
  then chr (n + 32) else c.

Fixpoint lower (s : string) : string :=
  match s with
  | EmptyString => EmptyString
  | String c s' => String (lower_char c) (lower s')
  end.

(** [c.upper()] in U+0000..U+00FF: a-z, the small letters U+00E0 to U+00FE
    without the division sign U+00F7, and sharp s, which becomes "SS".  The
    capitals of U+00B5 and U+00FF lie outside the block; the model leaves
    these two characters in place, which changes no comparison with an ASCII
    string. *)
Definition upper_char (c : ascii) : string :=
  let n := ord c in
  if ((97 <=? n) && (n <=? 122)) || ((224 <=? n) && (n <=? 254) && negb (n =? 247))
  then String (chr (n - 32)) EmptyString
  else if n =? 223 then "SS"
  else String c EmptyString.

Fixpoint upper (s : string) : string :=
  match s with
  | EmptyString => EmptyString
  | String c s' => upper_char c ++ upper s'
  end.

(** [c.isspace()] in U+0000..U+00FF. *)
Definition isspace (c : ascii) : bool :=
  let n := ord c in
  ((9 <=? n) && (n <=? 13)) || ((28 <=? n) && (n <=? 32))
  || (n =? 133) || (n =? 160).

Fixpoint lstrip (s : string) : string :=
  match s with
  | EmptyString => EmptyString
  | String c s' => if isspace c then lstrip s' else s
  end.

(** The string without its trailing white space: a character is kept when
    it is not white space or something is kept after it. *)
Fixpoint rstrip (s : string) : string :=
  match s with
  | EmptyString => EmptyString
  | String c s' =>
      match rstrip s' with
      | EmptyString => if isspace c then EmptyString else String c EmptyString
      | r => String c r
      end
  end.

(** [s.strip()] *)
Definition strip (s : string) : string := rstrip (lstrip s).

(** [sub in s] on two strings. *)
Fixpoint contains (sub s : string) : bool :=
  prefix sub s ||
  match s with
  | EmptyString => false
  | String _ s' => contains sub s'
  end.

End Text.

(** ** SHA-1 (FIPS 180-4), [hashlib.sha1] *)

Module Sha1.
Import Text.

Definition mask32 : Z := 4294967295.

Definition add32 (a b : Z) : Z := (a + b) mod 4294967296.

Definition not32 (a : Z) : Z := Z.lxor a mask32.

Definition rotl32 (n x : Z) : Z :=
  Z.lor (Z.land (Z.shiftl x n) mask32) (Z.shiftr x (32 - n)).

Definition f (t : nat) (b c d : Z) : Z :=
  if (t <? 20)%nat then Z.lor (Z.land b c) (Z.land (not32 b) d)
  else if (t <? 40)%nat then Z.lxor (Z.lxor b c) d
  else if (t <? 60)%nat then Z.lor (Z.lor (Z.land b c) (Z.land b d)) (Z.land c d)
  else Z.lxor (Z.lxor b c) d.

Definition K (t : nat) : Z :=
  if (t <? 20)%nat then 1518500249
  else if (t <? 40)%nat then 1859775393
  else if (t <? 60)%nat then 2400959708
  else 3395469782.

Record state := mkState { h0 : Z; h1 : Z; h2 : Z; h3 : Z; h4 : Z }.

Definition init : state :=
  mkState 1732584193 4023233417 2562383102 271733878 3285377520.

(** Big-endian words of a block. *)
Fixpoint words (l : bytes) : list Z :=
  match l with
  | a :: b :: c :: d :: r =>
      Z.lor (Z.lor (Z.lor (Z.shiftl a 24) (Z.shiftl b 16)) (Z.shiftl c 8)) d
      :: words r
  | _ => []
  end.

(** The rounds, with the message schedule kept as a window of the sixteen
    words [W(t) .. W(t+15)]. *)
Fixpoint rounds (n t : nat) (win : list Z) (s : state) : state :=
  match n with
  | O => s
  | S n' =>
      let wt := nth 0 win 0 in
      let wnew :=
        rotl32 1 (Z.lxor (Z.lxor (Z.lxor (nth 13 win 0) (nth 8 win 0))
                                 (nth 2 win 0)) wt) in
      let tmp :=
        add32 (add32 (add32 (add32 (rotl32 5 (h0 s)) (f t (h1 s) (h2 s) (h3 s)))
                            (h4 s)) (K t)) wt in
      rounds n' (S t) (tl win ++ [wnew])%list
             (mkState tmp (h0 s) (rotl32 30 (h1 s)) (h2 s) (h3 s))
  end.

Definition compress (s : state) (block : bytes) : state :=
  let r := rounds 80 0 (words block) s in
  mkState (add32 (h0 s) (h0 r)) (add32 (h1 s) (h1 r)) (add32 (h2 s) (h2 r))
          (add32 (h3 s) (h3 r)) (add32 (h4 s) (h4 r)).

(** [n] as [k] big-endian bytes. *)
Fixpoint be_bytes (k : nat) (n : Z) : bytes :=
  match k with
  | O => []
  | S k' => Z.land (Z.shiftr n (8 * Z.of_nat k')) 255 :: be_bytes k' n
  end.

Definition pad (msg : bytes) : bytes :=
  let len := Z.of_nat (List.length msg) in
  (msg ++ [128] ++ repeat 0 (Z.to_nat ((55 - len) mod 64))
       ++ be_bytes 8 (8 * len))%list.

Fixpoint blocks (fuel : nat) (l : bytes) : list bytes :=
  match fuel with
  | O => []
  | S fuel' =>
      match l with
      | [] => []
      | _ => firstn 64 l :: blocks fuel' (skipn 64 l)
      end
  end.

Definition digest_of (s : state) : bytes :=
  (be_bytes 4 (h0 s) ++ be_bytes 4 (h1 s) ++ be_bytes 4 (h2 s)
     ++ be_bytes 4 (h3 s) ++ be_bytes 4 (h4 s))%list.

(** [hashlib.sha1(msg).digest()] *)
Definition sha1 (msg : bytes) : bytes :=
  let p := pad msg in
  digest_of (fold_left compress (blocks (List.length p) p) init).

Definition block_size : nat := 64.

End Sha1.

(** ** HMAC (RFC 2104), [hmac.new(key, msg, hashlib.sha1).digest()] *)

Module Hmac.
Import Text.

(** A key longer than a block is hashed first; the key is then filled with
    zero bytes up to the block size. *)
Definition block_key (key : bytes) : bytes :=
  let k := if (Sha1.block_size <? List.length key)%nat then Sha1.sha1 key else key in
  (k ++ repeat 0 (Sha1.block_size - List.length k))%list.

Definition xor_with (x : Z) (b : bytes) : bytes := map (Z.lxor x) b.

Definition hmac_sha1 (key msg : bytes) : bytes :=
  let k := block_key key in
  let inner := Sha1.sha1 (xor_with 54 k ++ msg)%list in
  Sha1.sha1 (xor_with 92 k ++ inner)%list.

End Hmac.

(** ** Base64 (RFC 4648), [base64.b64encode] *)

Module Base64.
Import Text.

Definition alphabet : string :=
  "ABCDEFGHIJKLMNOPQRSTUVWXYZabcdefghijklmnopqrstuvwxyz0123456789+/".

(** The byte of the alphabet's character number [i]. *)
Definition digit (i : Z) : Z :=
  match get (Z.to_nat i) alphabet with
  | Some c => ord c
  | None => 61
  end.

Definition pad_byte : Z := 61.

Fixpoint b64encode (b : bytes) : bytes :=
  match b with
  | [] => []
  | [x] =>
      [digit (Z.shiftr x 2); digit (Z.shiftl (Z.land x 3) 4); pad_byte; pad_byte]
  | [x; y] =>
      [digit (Z.shiftr x 2);
       digit (Z.lor (Z.shiftl (Z.land x 3) 4) (Z.shiftr y 4));
       digit (Z.shiftl (Z.land y 15) 2); pad_byte]
  | x :: y :: z :: r =>
      digit (Z.shiftr x 2)
      :: digit (Z.lor (Z.shiftl (Z.land x 3) 4) (Z.shiftr y 4))
      :: digit (Z.lor (Z.shiftl (Z.land y 15) 2) (Z.shiftr z 6))
      :: digit (Z.land z 63)
      :: b64encode r
  end.

End Base64.

(** ** Python values, exceptions and the environment *)

Module Py.

(** An exception (an instance of [Exception]): its class and [str(e)]. *)
Record exn := mkExn { exn_type : string; exn_str : string }.

Inductive result (A : Type) : Type :=
| Ok (a : A)
| Raise (e : exn).
Arguments Ok {A} a.
Arguments Raise {A} e.

(** A Python [float] (IEEE binary64), by sign, mantissa and exponent. *)
Inductive pyfloat :=
| FZero (negative : bool)
| FInf (negative : bool)
| FNan
| FFinite (negative : bool) (mantissa : positive) (exponent : Z).

(** The values [json.loads] builds, and the values of an envelope. *)
Inductive pyval :=
| PNone
| PBool (b : bool)
| PInt (n : Z)
| PFloat (x : pyfloat)
| PStr (s : string)
| PList (l : list pyval)
| PDict (d : list (string * pyval)).

Definition dict := list (string * pyval).

(** [d.get(k)]: the value under key [k], if any. *)
Fixpoint lookup {V : Type} (k : string) (d : list (string * V)) : option V :=
  match d with
  | [] => None
  | (k', v) :: d' => if String.eqb k k' then Some v else lookup k d'
  end.

(** [bool(v)] *)
Definition truthy (v : pyval) : bool :=
  match v with
  | PNone => false
  | PBool b => b
  | PInt n => negb (n =? 0)
  | PFloat (FZero _) => false
  | PFloat _ => true
  | PStr s => negb (String.eqb s "")
  | PList l => match l with [] => false | _ => true end
  | PDict d => match d with [] => false | _ => true end
  end.

(** [v == s] for a string [s]: only a [str] equals a [str]. *)
Definition eq_str (v : pyval) (s : string) : bool :=
  match v with
  | PStr s' => String.eqb s' s
  | _ => false
  end.

Definition type_name (v : pyval) : string :=
  match v with
  | PNone => "NoneType"
  | PBool _ => "bool"
  | PInt _ => "int"
  | PFloat _ => "float"
  | PStr _ => "str"
  | PList _ => "list"
  | PDict _ => "dict"
  end.

(** [k in v] for a string [k]: a key of a dict, an element of a list, a
    substring of a string; a [TypeError] on the other values (the wording of
    the message is CPython's). *)
Definition py_in (k : string) (v : pyval) : result bool :=
  match v with
  | PDict d => Ok (match lookup k d with Some _ => true | None => false end)
  | PList l => Ok (existsb (fun x => eq_str x k) l)
  | PStr s => Ok (Text.contains k s)
  | _ => Raise (mkExn "TypeError"
                  ("argument of type '" ++ type_name v ++ "' is not iterable"))
  end.

(** [v[k]] for a string [k]. *)
Definition getitem (v : pyval) (k : string) : result pyval :=
  match v with
  | PDict d =>
      match lookup k d with
      | Some x => Ok x
      | None => Raise (mkExn "KeyError" ("'" ++ k ++ "'"))
      end
  | PList _ =>
      Raise (mkExn "TypeError" "list indices must be integers or slices, not str")
  | PStr _ =>
      Raise (mkExn "TypeError" "string indices must be integers, not 'str'")
  | _ =>
      Raise (mkExn "TypeError"
               ("'" ++ type_name v ++ "' object is not subscriptable"))
  end.

(** The process environment, after [load_dotenv()]. *)
Definition environ := list (string * string).

(** [os.getenv(name)] *)
Definition getenv (env : environ) (name : string) : option string :=
  lookup name env.

(** [bool(x)] for an optional string: [None] and [''] are false. *)
Definition truthy_opt (x : option string) : bool :=
  match x with
  | Some s => negb (String.eqb s "")
  | None => false
  end.

(** [f"{x}"] for an optional string. *)
Definition format_opt (x : option string) : string :=
  match x with
  | Some s => s
  | None => "None"
  end.

End Py.

(** ** The outside world and the trace of effects *)

Module World.
Import Py.

(** A naive local [datetime], as [datetime.now()] returns it. *)
Record datetime := mkDatetime {
  year : Z; month : Z; day : Z; hour : Z;
  minute : Z; second : Z; microsecond : Z
}.

(** A [requests.Response]: its status, its text, and what [response.json()]
    does (a value, or an exception when the body is not JSON). *)
Record response := mkResponse {
  status_code : Z;
  text : string;
  json : result pyval
}.

Definition params := list (string * string).

Inductive post_body :=
| JsonBody (data : option dict)
| DataBody (data : option dict).

(** The three calls the client makes on its session. *)
Inductive http_call :=
| SessionGet (url : string) (p : option params)
| SessionPost (url : string) (p : option params) (body : post_body).

Inductive event :=
| ClockRead
| HttpCall (c : http_call).

Record world := mkWorld {
  environment : environ;
  now : datetime;
  send : http_call -> result response
}.

(** A computation reads the world and yields a value and its trace. *)
Definition M (A : Type) : Type := world -> A * list event.

Definition ret {A : Type} (a : A) : M A := fun _ => (a, []).

Definition bind {A B : Type} (m : M A) (k : A -> M B) : M B :=
  fun w =>
    let (a, t1) := m w in
    let (b, t2) := k a w in
    (b, (t1 ++ t2)%list).

(** [try: body except Exception as e: handler] *)
Definition try_except {A : Type} (body : M (result A)) (handler : exn -> M A) : M A :=
  bind body (fun r => match r with Ok a => ret a | Raise e => handler e end).

(** Sequencing inside a [try] block: an exception skips the rest. *)
Definition bind_r {A B : Type} (m : M (result A)) (k : A -> M (result B)) : M (result B) :=
  bind m (fun r => match r with Ok a => k a | Raise e => ret (Raise e) end).

Definition value {A : Type} (m : M A) (w : world) : A := fst (m w).
Definition trace {A : Type} (m : M A) (w : world) : list event := snd (m w).

End World.

Notation "x <- m ;; k" := (World.bind m (fun x => k))
  (at level 61, m at next level, right associativity).
Notation "x <-! m ;; k" := (World.bind_r m (fun x => k))
  (at level 61, m at next level, right associativity).

(** ** [checksum.py] *)

Module Checksum.
Import Text Py World.

Record checksum := mkChecksum {
  SECRET_KEY_MAIN : string;
  SECRET_KEY_ALT : string;
  SECRET_KEY_LONG : string;
  SUPER_SECRET_CODE : string
}.

Definition missing_secrets : exn :=
  mkExn "ValueError"
    ("Missing required environment variables. Please ensure SECRET_KEY_MAIN, "
     ++ "SECRET_KEY_ALT, SECRET_KEY_LONG and SUPER_SECRET_CODE are set in your .env file.").

(** [checksum.__init__] *)
Definition __init__ : M (result checksum) := fun w =>
  let main := getenv (environment w) "SECRET_KEY_MAIN" in
  let alt := getenv (environment w) "SECRET_KEY_ALT" in
  let long := getenv (environment w) "SECRET_KEY_LONG" in
  let code := getenv (environment w) "SUPER_SECRET_CODE" in
  if negb (forallb truthy_opt [main; alt; long; code])
  then (Raise missing_secrets, [])
  else (Ok (mkChecksum (format_opt main) (format_opt alt)
                       (format_opt long) (format_opt code)), []).

Definition digit (n : Z) : ascii := chr (48 + n mod 10).

(** [%d], [%m], [%H]: two digits. *)
Definition pad2 (n : Z) : string :=
  String (digit (n / 10)) (String (digit n) EmptyString).

(** [%Y]: the four digits of a year from 1000 on. *)
Definition pad4 (n : Z) : string :=
  String (digit (n / 1000)) (String (digit (n / 100)) (pad2 n)).

(** [now.strftime('%d/%m/%Y %H:00')] *)
Definition strftime (t : datetime) : string :=
  pad2 (day t) ++ "/" ++ pad2 (month t) ++ "/" ++ pad4 (year t)
       ++ " " ++ pad2 (hour t) ++ ":00".

Definition get_timestamp : M string := fun w =>
  (strftime (now w), [ClockRead]).

Definition generate_hmac (key message : string) : string :=
  let key_bytes := encode_utf8 key in
  let message_bytes := encode_utf8 message in
  let hmac_obj := Hmac.hmac_sha1 key_bytes message_bytes in
  decode_ascii (Base64.b64encode hmac_obj).

Definition url_encode_checksum (checksum : string) : string :=
  replace " " "+" (replace "=" "%3d" checksum).

Definition checksum_k (self : checksum) (roll_number campus_code : string) : M string :=
  timestamp <- get_timestamp ;;
  let message := roll_number ++ SUPER_SECRET_CODE self ++ campus_code ++ timestamp in
  let checksum := generate_hmac (SECRET_KEY_MAIN self) message in
  ret (url_encode_checksum checksum).

Definition checksum_y (self : checksum) (username campus_code : string) : M string :=
  timestamp <- get_timestamp ;;
  let message := username ++ SUPER_SECRET_CODE self ++ campus_code ++ timestamp in
  let checksum := generate_hmac (SECRET_KEY_ALT self) message in
  ret (url_encode_checksum checksum).

Definition checksum_a (self : checksum) (parameter : string) : M string :=
  timestamp <- get_timestamp ;;
  let message := SECRET_KEY_LONG self ++ parameter ++ timestamp in
  let checksum := generate_hmac (SECRET_KEY_MAIN self) message in
  ret (url_encode_checksum checksum).

End Checksum.

(** ** [api.py] *)

Module Api.
Import Text Py World.

Record API := mkAPI {
  BASE_URL : option string;
  GOOGLE_AUTH_URL : option string;
  AUTHEN_KEY : string;
  checksum : Checksum.checksum;
  session_headers : list (string * string)
}.

Definition missing_authen_key : exn :=
  mkExn "ValueError"
    ("Missing required environment variable AUTHEN_KEY. "
     ++ "Please set it in your .env file.").

(** The class body of [API], run once, when the module is imported: the
    two base URLs are the environment's of that moment. *)
Record API_class := mkClass {
  cls_BASE_URL : option string;
  cls_GOOGLE_AUTH_URL : option string
}.

Definition class_body (env : environ) : API_class :=
  mkClass (getenv env "BASE_URL") (getenv env "GOOGLE_AUTH_URL").

(** [headers[k] = v] on the headers of a session, whose keys are compared
    without regard to case: an entry with the key is replaced where it
    stands, a new key goes to the end. *)
Fixpoint header_set (k v : string) (h : list (string * string))
  : list (string * string) :=
  match h with
  | [] => [(k, v)]
  | (k', v') :: h' =>
      if String.eqb (lower k') (lower k) then (k, v) :: h'
      else (k', v') :: header_set k v h'
  end.

(** [headers.update(u)] *)
Definition headers_update (h u : list (string * string)) : list (string * string) :=
  fold_left (fun acc kv => header_set (fst kv) (snd kv) acc) u h.

(** [API.__init__].  [cls] holds the class attributes, read at import;
    [session] is the headers of the fresh [requests.Session()].  The key and
    the secrets are read from the environment at construction. *)
Definition __init__ (cls : API_class) (session : list (string * string))
  : M (result API) := fun w =>
  let authen_key := getenv (environment w) "AUTHEN_KEY" in
  if negb (truthy_opt authen_key)
  then (Raise missing_authen_key, [])
  else
    (c <-! Checksum.__init__ ;;
     ret (Ok (mkAPI (cls_BASE_URL cls) (cls_GOOGLE_AUTH_URL cls)
                    (format_opt authen_key) c
                    (headers_update session
                       [("Content-Type", "application/json");
                        ("User-Agent", "okhttp/3.12.1")])))) w.

(** The session's [get] and [post]: one call, recorded in the trace. *)
Definition session_call (c : http_call) : M (result response) := fun w =>
  (send w c, [HttpCall c]).

Definition session_get (url : string) (p : option params) : M (result response) :=
  session_call (SessionGet url p).

Definition session_post (url : string) (p : option params) (body : post_body)
  : M (result response) :=
  session_call (SessionPost url p body).

(** The envelope of the [except] branch. *)
Definition failure_envelope (e : exn) : dict :=
  [("success", PBool false);
   ("error", PStr (exn_str e));
   ("status_code", PNone);
   ("data", PNone)].

(** [json_data and 'code' in json_data], as a condition. *)
Definition has_code (json_data : pyval) : result bool :=
  if truthy json_data then py_in "code" json_data else Ok false.

(** The success flag: the HTTP status, and the [code] field when the test
    above holds.  [and] does not evaluate its right operand when the status
    is not 200. *)
Definition classify (status : Z) (json_data : pyval) : result bool :=
  let is_success := status =? 200 in
  match has_code json_data with
  | Raise e => Raise e
  | Ok true =>
      if is_success
      then match getitem json_data "code" with
           | Ok v => Ok (eq_str v "200")
           | Raise e => Raise e
           end
      else Ok false
  | Ok false => Ok is_success
  end.

Definition _make_request (method url : string) (p : option params)
    (data : option dict) (use_json : bool) : M dict :=
  try_except
    (response <-!
       (if String.eqb (upper method) "GET" then session_get url p
        else if String.eqb (upper method) "POST" then
          if use_json then session_post url p (JsonBody data)
          else session_post url p (DataBody data)
        else ret (Raise (mkExn "ValueError" ("Unsupported HTTP method: " ++ method)))) ;;
     let json_data :=
       match json response with
       | Ok v => v
       | Raise _ => PNone
       end in
     is_success <-! ret (classify (status_code response) json_data) ;;
     ret (Ok [("success", PBool is_success);
              ("status_code", PInt (status_code response));
              ("data", json_data);
              ("raw_response", PStr (text response))]))
    (fun e => ret (failure_envelope e)).

Definition get_student_by_id (self : API) (campus_code roll_number authen : string) : M dict :=
  checksum <- Checksum.checksum_k (checksum self) roll_number campus_code ;;
  let url := format_opt (BASE_URL self) ++ "/GetStudentById" in
  let params :=
    [("campusCode", campus_code);
     ("rollNumber", roll_number);
     ("Authen", authen);
     ("checksum", checksum)] in
  _make_request "GET" url (Some params) None true.

Definition get_student_rate (self : API) (campus_code roll_number authen : string) : M dict :=
  checksum <- Checksum.checksum_k (checksum self) roll_number campus_code ;;
  let url := format_opt (BASE_URL self) ++ "/GetStudentRate" in
  let params :=
    [("campusCode", campus_code);
     ("rollNumber", roll_number);
     ("Authen", authen);
     ("checksum", checksum)] in
  _make_request "GET" url (Some params) None true.

Definition add_rate (self : API) (campus_code authen rate_id rate_value rate_comment : string) : M dict :=
  checksum <- Checksum.checksum_k (checksum self) rate_id campus_code ;;
  let url := format_opt (BASE_URL self) ++ "/AddRate" in
  let params :=
    [("campusCode", campus_code);
     ("Authen", authen);
     ("rateid", rate_id);
     ("rateValue", rate_value);
     ("rateComment", rate_comment);
     ("checksum", checksum)] in
  _make_request "POST" url (Some params) None true.

Definition get_balance (self : API) (campus_code roll_number authen : string) : M dict :=
  checksum <- Checksum.checksum_k (checksum self) roll_number campus_code ;;
  let url := format_opt (BASE_URL self) ++ "/GetBalance" in
  let params :=
    [("campusCode", campus_code);
     ("rollNumber", roll_number);
     ("Authen", authen);
     ("checksum", checksum)] in
  _make_request "GET" url (Some params) None true.

Definition get_fee_by_roll (self : API) (campus_code roll_number authen : string) : M dict :=
  checksum <- Checksum.checksum_k (checksum self) roll_number campus_code ;;
  let url := format_opt (BASE_URL self) ++ "/GeFeeByRoll" in
  let params :=
    [("campusCode", campus_code);
     ("rollNumber", roll_number);
     ("Authen", authen);
     ("checksum", checksum)] in
  _make_request "GET" url (Some params) None true.

Definition get_application (self : API) (campus_code roll_number authen : string) : M dict :=
  checksum <- Checksum.checksum_k (checksum self) roll_number campus_code ;;
  let url := format_opt (BASE_URL self) ++ "/GetApplication" in
  let params :=
    [("campusCode", campus_code);
     ("rollNumber", roll_number);
     ("Authen", authen);
     ("checksum", checksum)] in
  _make_request "GET" url (Some params) None true.

Definition retrieve_image (self : API) (campus_code roll_number authen : string) : M dict :=
  checksum <- Checksum.checksum_k (checksum self) roll_number campus_code ;;
  let url := format_opt (BASE_URL self) ++ "/RetriveImage" in
  let params :=
    [("campusCode", campus_code);
     ("rollNumber", roll_number);
     ("Authen", authen);
     ("checksum", checksum)] in
  _make_request "GET" url (Some params) None true.

Definition get_diemphongtrao (self : API) (campus_code roll_number semester authen : string) : M dict :=
  checksum <- Checksum.checksum_k (checksum self) roll_number campus_code ;;
  let url := format_opt (BASE_URL self) ++ "/GetDiemphongtrao" in
  let params :=
    [("campusCode", campus_code);
     ("rollNumber", roll_number);
     ("semester", semester);
     ("Authen", authen);
     ("checksum", checksum)] in
  _make_request "GET" url (Some params) None true.

Definition get_activity_student (self : API) (campus_code semester roll_number authen : string) : M dict :=
  checksum <- Checksum.checksum_k (checksum self) roll_number campus_code ;;
  let url := format_opt (BASE_URL self) ++ "/GetActivityStudent" in
  let params :=
    [("campusCode", campus_code);
     ("rollNumber", roll_number);
     ("Semester", semester);
     ("Authen", authen);
     ("checksum", checksum)] in
  _make_request "GET" url (Some params) None true.

Definition get_activity_student_by_week (self : API) (campus_code week roll_number semester year authen : string) : M dict :=
  checksum <- Checksum.checksum_k (checksum self) roll_number campus_code ;;
  let url := format_opt (BASE_URL self) ++ "/GetActivityStudentByWeek" in
  let params :=
    [("campusCode", campus_code);
     ("week", week);
     ("rollNumber", roll_number);
     ("Semester", semester);
     ("year", year);
     ("Authen", authen);
     ("checksum", checksum)] in
  _make_request "GET" url (Some params) None true.

Definition get_notification_by_roll (self : API) (campus_code roll_number authen : string) : M dict :=
  checksum <- Checksum.checksum_k (checksum self) roll_number campus_code ;;
  let url := format_opt (BASE_URL self) ++ "/GetNotificationByRoll" in
  let params :=
    [("campusCode", campus_code);
     ("rollNumber", roll_number);
     ("Authen", authen);
     ("checksum", checksum)] in
  _make_request "GET" url (Some params) None true.

Definition get_all_active_campus (self : API) : M dict :=
  let url := format_opt (BASE_URL self) ++ "/GetAllActiveCampus" in
  _make_request "GET" url None None true.

Definition get_version (self : API) : M dict :=
  let url := format_opt (BASE_URL self) ++ "/GetVersion" in
  _make_request "GET" url None None true.

Definition get_campus_info (self : API) (campus_code roll_number authen : string) : M dict :=
  checksum <- Checksum.checksum_k (checksum self) roll_number campus_code ;;
  let url := format_opt (BASE_URL self) ++ "/GetCampusInfo" in
  let params :=
    [("campusCode", campus_code);
     ("rollNumber", roll_number);
     ("Authen", authen);
     ("checksum", checksum)] in
  _make_request "GET" url (Some params) None true.

Definition check_open_feedback (self : API) (campus_code roll_number authen : string) : M dict :=
  checksum <- Checksum.checksum_k (checksum self) roll_number campus_code ;;
  let url := format_opt (BASE_URL self) ++ "/CheckOpenFeedBack" in
  let params :=
    [("campusCode", campus_code);
     ("rollNumber", roll_number);
     ("Authen", authen);
     ("checksum", checksum)] in
  _make_request "GET" url (Some params) None true.

Definition check_update_profile (self : API) (campus_code roll_number authen : string) : M dict :=
  checksum <- Checksum.checksum_k (checksum self) roll_number campus_code ;;
  let url := format_opt (BASE_URL self) ++ "/CheckUpdateProfile" in
  let params :=
    [("campusCode", campus_code);
     ("rollNumber", roll_number);
     ("Authen", authen);
     ("checksum", checksum)] in
  _make_request "GET" url (Some params) None true.

Definition get_required_survey (self : API) (username : string) : M dict :=
  checksum <- Checksum.checksum_y (checksum self) (strip (lower username)) "" ;;
  let url := format_opt (GOOGLE_AUTH_URL self) ++ "/GetRequiredSurvey" in
  let params :=
    [("username", strip (lower username));
     ("checksum", checksum)] in
  _make_request "GET" url (Some params) None true.

Definition get_semester (self : API) (campus_code authen : string) : M dict :=
  checksum <- Checksum.checksum_a (checksum self) campus_code ;;
  let url := format_opt (BASE_URL self) ++ "/GetSemester" in
  let params :=
    [("campusCode", campus_code);
     ("Authen", authen);
     ("checksum", checksum)] in
  _make_request "GET" url (Some params) None true.

Definition get_subject_by_semester (self : API) (campus_code semester authen : string) : M dict :=
  checksum <- Checksum.checksum_k (checksum self) "" campus_code ;;
  let url := format_opt (BASE_URL self) ++ "/GetSubjectBySemester" in
  let params :=
    [("campusCode", campus_code);
     ("Semester", semester);
     ("Authen", authen);
     ("checksum", checksum)] in
  _make_request "GET" url (Some params) None true.

Definition get_week_by_date (self : API) (timestamp : string) : M dict :=
  checksum <- Checksum.checksum_a (checksum self) timestamp ;;
  let url := format_opt (BASE_URL self) ++ "/GetWeekByDate" in
  let params :=
    [("date", timestamp)] in
  _make_request "GET" url (Some params) None true.

Definition get_student_attendances (self : API) (campus_code semester roll_number authen : string) : M dict :=
  checksum <- Checksum.checksum_k (checksum self) roll_number campus_code ;;
  let url := format_opt (BASE_URL self) ++ "/GetStudentAttendances" in
  let params :=
    [("campusCode", campus_code);
     ("Semester", semester);
     ("rollNumber", roll_number);
     ("Authen", authen);
     ("checksum", checksum)] in
  _make_request "GET" url (Some params) None true.

Definition get_exam_schedule (self : API) (campus_code semester roll_number authen : string) : M dict :=
  checksum <- Checksum.checksum_k (checksum self) roll_number campus_code ;;
  let url := format_opt (BASE_URL self) ++ "/GetScheduleExam" in
  let params :=
    [("campusCode", campus_code);
     ("rollNumber", roll_number);
     ("Semester", semester);
     ("Authen", authen);
     ("checksum", checksum)] in
  _make_request "GET" url (Some params) None true.

Definition get_student_mark (self : API) (campus_code semester roll_number authen : string) : M dict :=
  checksum <- Checksum.checksum_k (checksum self) roll_number campus_code ;;
  let url := format_opt (BASE_URL self) ++ "/GetStudentMark" in
  let params :=
    [("campusCode", campus_code);
     ("rollNumber", roll_number);
     ("Semester", semester);
     ("Authen", authen);
     ("checksum", checksum)] in
  _make_request "GET" url (Some params) None true.

Definition get_top10_news (self : API) (campus_code authen news_type : string) : M dict :=
  checksum <- Checksum.checksum_k (checksum self) news_type campus_code ;;
  let url := format_opt (BASE_URL self) ++ "/GetTop10News" in
  let params :=
    [("campusCode", campus_code);
     ("Authen", authen);
     ("type", news_type);
     ("checksum", checksum)] in
  _make_request "GET" url (Some params) None true.

End Api.

(** ** The client's operations, as one type *)

Module Client.
Import Text Py World.

(** One constructor per method of [API], with the method's arguments in the
    method's order. *)
Inductive operation :=
| GetStudentById (campus_code roll_number authen : string)
| GetStudentRate (campus_code roll_number authen : string)
| AddRate (campus_code authen rate_id rate_value rate_comment : string)
| GetBalance (campus_code roll_number authen : string)
| GetFeeByRoll (campus_code roll_number authen : string)
| GetApplication (campus_code roll_number authen : string)
| RetrieveImage (campus_code roll_number authen : string)
| GetDiemphongtrao (campus_code roll_number semester authen : string)
| GetActivityStudent (campus_code semester roll_number authen : string)
| GetActivityStudentByWeek (campus_code week roll_number semester year authen : string)
| GetNotificationByRoll (campus_code roll_number authen : string)
| GetAllActiveCampus
| GetVersion
| GetCampusInfo (campus_code roll_number authen : string)
| CheckOpenFeedback (campus_code roll_number authen : string)
| CheckUpdateProfile (campus_code roll_number authen : string)
| GetRequiredSurvey (username : string)
| GetSemester (campus_code authen : string)
| GetSubjectBySemester (campus_code semester authen : string)
| GetWeekByDate (timestamp : string)
| GetStudentAttendances (campus_code semester roll_number authen : string)
| GetExamSchedule (campus_code semester roll_number authen : string)
| GetStudentMark (campus_code semester roll_number authen : string)
| GetTop10News (campus_code authen news_type : string).

Definition perform (self : Api.API) (op : operation) : M dict :=
  match op with
  | GetStudentById c r a => Api.get_student_by_id self c r a
  | GetStudentRate c r a => Api.get_student_rate self c r a
  | AddRate c a i v m => Api.add_rate self c a i v m
  | GetBalance c r a => Api.get_balance self c r a
  | GetFeeByRoll c r a => Api.get_fee_by_roll self c r a
  | GetApplication c r a => Api.get_application self c r a
  | RetrieveImage c r a => Api.retrieve_image self c r a
  | GetDiemphongtrao c r s a => Api.get_diemphongtrao self c r s a
  | GetActivityStudent c s r a => Api.get_activity_student self c s r a
  | GetActivityStudentByWeek c k r s y a =>
      Api.get_activity_student_by_week self c k r s y a
  | GetNotificationByRoll c r a => Api.get_notification_by_roll self c r a
  | GetAllActiveCampus => Api.get_all_active_campus self
  | GetVersion => Api.get_version self
  | GetCampusInfo c r a => Api.get_campus_info self c r a
  | CheckOpenFeedback c r a => Api.check_open_feedback self c r a
  | CheckUpdateProfile c r a => Api.check_update_profile self c r a
  | GetRequiredSurvey u => Api.get_required_survey self u
  | GetSemester c a => Api.get_semester self c a
  | GetSubjectBySemester c s a => Api.get_subject_by_semester self c s a
  | GetWeekByDate t => Api.get_week_by_date self t
  | GetStudentAttendances c s r a => Api.get_student_attendances self c s r a
  | GetExamSchedule c s r a => Api.get_exam_schedule self c s r a
  | GetStudentMark c s r a => Api.get_student_mark self c s r a
  | GetTop10News c a t => Api.get_top10_news self c a t
  end.

(** The HTTP calls in a trace. *)
Fixpoint calls (t : list event) : list http_call :=
  match t with
  | [] => []
  | ClockRead :: t' => calls t'
  | HttpCall c :: t' => c :: calls t'
  end.

(** The query parameters of a call. *)
Definition call_params (c : http_call) : params :=
  match c with
  | SessionGet _ (Some p) | SessionPost _ (Some p) _ => p
  | _ => []
  end.

(** Whether a dict has a key. *)
Definition has_key {V : Type} (k : string) (d : list (string * V)) : bool :=
  match lookup k d with
  | Some _ => true
  | None => false
  end.

End Client.

(** ** The signature as the specification words it *)

Module Spec.
Import Text.

(** The escape step, character by character: [=] becomes [%3d], a space
    becomes [+], any other character stays. *)
Definition escape_char (c : ascii) : string :=
  if Ascii.eqb c "="%char then "%3d"
  else if Ascii.eqb c " "%char then "+"
  else String c EmptyString.

Fixpoint escape (s : string) : string :=
  match s with
  | EmptyString => EmptyString
  | String c s' => escape_char c ++ escape s'
  end.

(** The slots of a message template, concatenated in order; HMAC with SHA-1
    under the key; base64 of the raw digest; the escape step. *)
Definition signature (key : string) (slots : list string) : string :=
  escape
    (decode_ascii
       (Base64.b64encode
          (Hmac.hmac_sha1 (encode_utf8 key) (encode_utf8 (String.concat "" slots))))).

(** Whether character [c] occurs in [s]. *)
Fixpoint occurs (c : ascii) (s : string) : bool :=
  match s with
  | EmptyString => false
  | String c' s' => Ascii.eqb c c' || occurs c s'
  end.

(** Two clock readings in the same hour of the same day. *)
Definition same_hour (t1 t2 : World.datetime) : Prop :=
  World.year t1 = World.year t2 /\ World.month t1 = World.month t2 /\
  World.day t1 = World.day t2 /\ World.hour t1 = World.hour t2.

End Spec.

(** ** Derived descriptions of the client and the signer

    Closed forms of what the code computes; each is related to the code by a
    lemma further down. *)

Module Derived.
Import Text Py World Client Spec.

(** Replacing a single character is a substitution character by
    character. *)
Fixpoint subst_char (o : ascii) (new s : string) : string :=
  match s with
  | EmptyString => EmptyString
  | String c s' =>
      (if Ascii.eqb o c then new else String c EmptyString) ++ subst_char o new s'
  end.

(** The call [_make_request] makes for a method string, or the error it
    raises for a method that is neither GET nor POST. *)
Definition dispatch (method url : string) (p : option params)
    (data : option dict) (use_json : bool) : result http_call :=
  if String.eqb (upper method) "GET" then Ok (SessionGet url p)
  else if String.eqb (upper method) "POST" then
    Ok (SessionPost url p (if use_json then JsonBody data else DataBody data))
  else Raise (mkExn "ValueError" ("Unsupported HTTP method: " ++ method)).

(** What [response.json()] leaves in [json_data]. *)
Definition json_data_of (r : response) : pyval :=
  match json r with
  | Ok v => v
  | Raise _ => PNone
  end.

(** The envelope for a response the transport returned. *)
Definition envelope_of (r : response) : dict :=
  match Api.classify (status_code r) (json_data_of r) with
  | Ok is_success =>
      [("success", PBool is_success);
       ("status_code", PInt (status_code r));
       ("data", json_data_of r);
       ("raw_response", PStr (text r))]
  | Raise e => Api.failure_envelope e
  end.

(** The envelope for a call, by what the transport does with it. *)
Definition respond (w : world) (c : http_call) : dict :=
  match send w c with
  | Ok r => envelope_of r
  | Raise e => Api.failure_envelope e
  end.

(** The flag cannot be computed on a true boolean, a number other than zero,
    and, under status 200, a list with the element "code" or a string
    with the substring "code": the test or the lookup raises. *)
Definition code_test_raises (status : Z) (v : pyval) : bool :=
  match v with
  | PBool b => b
  | PInt n => negb (n =? 0)
  | PFloat x => truthy (PFloat x)
  | PList l => (status =? 200) && existsb (fun x => eq_str x "code") l
  | PStr s => (status =? 200) && Text.contains "code" s
  | PNone | PDict _ => false
  end.

(** The operations that do attach a checksum, for comparison: every
    operation but [get_week_by_date] and the two unsigned ones sends a
    [checksum] parameter. *)
Definition sends_checksum (op : operation) : bool :=
  match op with
  | GetWeekByDate _ | GetAllActiveCampus | GetVersion => false
  | _ => true
  end.

(** The four variables [checksum.__init__] reads. *)
Definition secret_names : list string :=
  ["SECRET_KEY_MAIN"; "SECRET_KEY_ALT"; "SECRET_KEY_LONG"; "SUPER_SECRET_CODE"].

(** A variable that is not set, or set to the empty string. *)
Definition unset (env : environ) (name : string) : Prop :=
  getenv env name = None \/ getenv env name = Some "".

(** A byte that is an ASCII character other than a space. *)
Definition ascii_no_space (x : Z) : Prop := 0 <= x < 128 /\ x <> 32.

(** Bytes in hexadecimal, to compare digests with published vectors. *)
Definition hex_of (b : bytes) : string :=
  let h i :=
    match get (Z.to_nat i) "0123456789abcdef" with
    | Some c => c
    | None => "?"%char
    end in
  fold_right
    (fun x acc => String (h (Z.shiftr x 4)) (String (h (Z.land x 15)) acc))
    EmptyString b.

(** A byte. *)
Definition byte (x : Z) : Prop := 0 <= x < 256.

(** Whether every character of [s] satisfies [test]. *)
Fixpoint all_chars (test : ascii -> bool) (s : string) : bool :=
  match s with
  | EmptyString => true
  | String c s' => test c && all_chars test s'
  end.

(** A character of the base64 alphabet (not the padding). *)
Definition base64_char (c : ascii) : bool := occurs c Base64.alphabet.

(** The text of a signature: twenty-seven characters of the base64
    alphabet, then the escaped padding sign; thirty characters in all. *)
Definition signature_text (s : string) : Prop :=
  exists body,
    s = body ++ "%3d" /\
    length body = 27%nat /\
    all_chars base64_char body = true /\
    length s = 30%nat.

(** How many times [c] occurs in [s]. *)
Fixpoint count_char (c : ascii) (s : string) : nat :=
  match s with
  | EmptyString => O
  | String c' s' => ((if Ascii.eqb c c' then 1 else 0) + count_char c s')%nat
  end.

(** The fields of a [datetime] the clock can return, with a year of four
    digits. *)
Definition valid_datetime (t : datetime) : Prop :=
  1000 <= year t <= 9999 /\ 1 <= month t <= 12 /\
  1 <= day t <= 31 /\ 0 <= hour t <= 23.

(** The operations that sign, and so read the clock. *)
Definition reads_clock (op : operation) : bool :=
  match op with
  | GetAllActiveCampus | GetVersion => false
  | _ => true
  end.

(** Whether a call is a GET. *)
Definition is_get (c : http_call) : bool :=
  match c with
  | SessionGet _ _ => true
  | SessionPost _ _ _ => false
  end.

(** A string that does not start with white space. *)
Definition starts_clean (s : string) : bool :=
  match s with
  | EmptyString => true
  | String c _ => negb (isspace c)
  end.

(** The token an operation is given, if it takes one. *)
Definition authen_of (op : operation) : option string :=
  match op with
  | GetStudentById _ _ a | GetStudentRate _ _ a | AddRate _ a _ _ _
  | GetBalance _ _ a | GetFeeByRoll _ _ a | GetApplication _ _ a
  | RetrieveImage _ _ a | GetDiemphongtrao _ _ _ a | GetActivityStudent _ _ _ a
  | GetActivityStudentByWeek _ _ _ _ _ a | GetNotificationByRoll _ _ a
  | GetCampusInfo _ _ a | CheckOpenFeedback _ _ a | CheckUpdateProfile _ _ a
  | GetSemester _ a | GetSubjectBySemester _ _ a
  | GetStudentAttendances _ _ _ a | GetExamSchedule _ _ _ a
  | GetStudentMark _ _ _ a | GetTop10News _ a _ => Some a
  | GetAllActiveCampus | GetVersion | GetRequiredSurvey _ | GetWeekByDate _ => None
  end.

(** The campus code an operation is given, if it takes one. *)
Definition campus_of (op : operation) : option string :=
  match op with
  | GetStudentById c _ _ | GetStudentRate c _ _ | AddRate c _ _ _ _
  | GetBalance c _ _ | GetFeeByRoll c _ _ | GetApplication c _ _
  | RetrieveImage c _ _ | GetDiemphongtrao c _ _ _ | GetActivityStudent c _ _ _
  | GetActivityStudentByWeek c _ _ _ _ _ | GetNotificationByRoll c _ _
  | GetCampusInfo c _ _ | CheckOpenFeedback c _ _ | CheckUpdateProfile c _ _
  | GetSemester c _ | GetSubjectBySemester c _ _
  | GetStudentAttendances c _ _ _ | GetExamSchedule c _ _ _
  | GetStudentMark c _ _ _ | GetTop10News c _ _ => Some c
  | GetAllActiveCampus | GetVersion | GetRequiredSurvey _ | GetWeekByDate _ => None
  end.

End Derived.

(** ** Worlds and responses used as examples *)

Module Scenarios.
Import Text Py World.

(** Two readings of the clock in the hour from 09:00 on 7 March 2024, at
    09:00:01 and at 09:59:58. *)
Definition morning_early : world :=
  mkWorld [] (mkDatetime 2024 3 7 9 0 1 250)
    (fun _ => Raise (mkExn "ConnectionError" "unreachable")).

Definition morning_late : world :=
  mkWorld [] (mkDatetime 2024 3 7 9 59 58 0)
    (fun _ => Raise (mkExn "ConnectionError" "unreachable")).

(** A transport that answers every call with the same response. *)
Definition answering (r : response) : world :=
  mkWorld [] (mkDatetime 2024 3 7 9 41 5 0) (fun _ => Ok r).

(** A configured client. *)
Definition api0 : Api.API :=
  Api.mkAPI (Some "https://api.example") (Some "https://auth.example") "token"
    (Checksum.mkChecksum "k1" "k2" "long" "code")
    [("Content-Type", "application/json"); ("User-Agent", "okhttp/3.12.1")].

(** [s] between double quotes. *)
Definition quoted (s : string) : string :=
  String (chr 34) s ++ String (chr 34) EmptyString.

(** The mocked response of the specification: HTTP 200 with a JSON object
    whose [code] field is the string 400. *)
Definition denied : response :=
  mkResponse 200
    ("{" ++ quoted "code" ++ ": " ++ quoted "400" ++ ", "
         ++ quoted "message" ++ ": " ++ quoted "denied" ++ "}")
    (Ok (PDict [("code", PStr "400"); ("message", PStr "denied")])).

(** HTTP 200 with a body that is not JSON. *)
Definition html_page : response :=
  mkResponse 200 "<html>Bad gateway</html>"
    (Raise (mkExn "JSONDecodeError" "Expecting value: line 1 column 1 (char 0)")).

(** An environment with the key and three of the four secrets. *)
Definition without_long_key : world :=
  mkWorld
    [("BASE_URL", "https://api.example"); ("AUTHEN_KEY", "token");
     ("SECRET_KEY_MAIN", "k1"); ("SECRET_KEY_ALT", "k2");
     ("SUPER_SECRET_CODE", "code")]
    (mkDatetime 2024 3 7 9 41 5 0)
    (fun _ => Raise (mkExn "ConnectionError" "unreachable")).

(** An environment with the key and the four secrets and no base URL. *)
Definition without_base_url : world :=
  mkWorld
    [("AUTHEN_KEY", "token");
     ("SECRET_KEY_MAIN", "k1"); ("SECRET_KEY_ALT", "k2");
     ("SECRET_KEY_LONG", "long"); ("SUPER_SECRET_CODE", "code")]
    (mkDatetime 2024 3 7 9 41 5 0)
    (fun _ => Raise (mkExn "MissingSchema" "Invalid URL 'None/GetVersion': No scheme supplied.")).

(** HTTP 200 with a JSON object whose [code] field is the string 200. *)
Definition accepted : response :=
  mkResponse 200
    ("{" ++ quoted "code" ++ ": " ++ quoted "200" ++ "}")
    (Ok (PDict [("code", PStr "200")])).

(** HTTP 200 with the empty JSON object. *)
Definition empty_object : response :=
  mkResponse 200 "{}" (Ok (PDict [])).

(** A transport that raises the same exception on every call. *)
Definition failing (e : exn) : world :=
  mkWorld [] (mkDatetime 2024 3 7 9 41 5 0) (fun _ => Raise e).

(** The headers of a fresh session of the HTTP library. *)
Definition fresh_session : list (string * string) :=
  [("User-Agent", "python-requests/2.32.3");
   ("Accept-Encoding", "gzip, deflate");
   ("Accept", "*/*");
   ("Connection", "keep-alive")].

(** The client built from [without_base_url], imported and constructed in
    that environment. *)
Definition client_without_url : Api.API :=
  Api.mkAPI None None "token" (Checksum.mkChecksum "k1" "k2" "long" "code")
    [("User-Agent", "okhttp/3.12.1");
     ("Accept-Encoding", "gzip, deflate");
     ("Accept", "*/*");
     ("Connection", "keep-alive");
     ("Content-Type", "application/json")].

(** An environment in which the base URLs are set. *)
Definition with_urls : environ :=
  [("BASE_URL", "https://late.example");
   ("GOOGLE_AUTH_URL", "https://auth.example");
   ("AUTHEN_KEY", "token");
   ("SECRET_KEY_MAIN", "k1"); ("SECRET_KEY_ALT", "k2");
   ("SECRET_KEY_LONG", "long"); ("SUPER_SECRET_CODE", "code")].

(** The world of a client constructed after the URLs were set. *)
Definition constructed_late : world :=
  mkWorld with_urls (mkDatetime 2024 3 7 9 41 5 0)
    (fun _ => Raise (mkExn "ConnectionError" "unreachable")).

End Scenarios.

(** ** Test vectors *)

Module Vectors.
Import Text Derived.

(** FIPS 180 examples. *)
Example sha1_abc :
  hex_of (Sha1.sha1 (encode_utf8 "abc")) = "a9993e364706816aba3e25717850c26c9cd0d89d".
Proof. vm_compute. reflexivity. Qed.

Example sha1_empty :
  hex_of (Sha1.sha1 []) = "da39a3ee5e6b4b0d3255bfef95601890afd80709".
Proof. vm_compute. reflexivity. Qed.

Example sha1_two_blocks :
  hex_of (Sha1.sha1 (encode_utf8
    "abcdbcdecdefdefgefghfghighijhijkijkljklmklmnlmnomnopnopq"))
  = "84983e441c3bd26ebaae4aa1f95129e5e54670f1".
Proof. vm_compute. reflexivity. Qed.

(** RFC 2202, test cases 2 and 6 (a key longer than a block). *)
Example hmac_sha1_jefe :
  hex_of (Hmac.hmac_sha1 (encode_utf8 "Jefe")
            (encode_utf8 "what do ya want for nothing?"))
  = "effcdf6ae5eb2fa2d27416d5f184df9c259a7c79".
Proof. vm_compute. reflexivity. Qed.

Example hmac_sha1_long_key :
  hex_of (Hmac.hmac_sha1 (repeat 170 80)
            (encode_utf8 "Test Using Larger Than Block-Size Key - Hash Key First"))
  = "aa4ae5e15272d00e95705637ce8a3b55ed402112".
Proof. vm_compute. reflexivity. Qed.

(** RFC 4648, section 10. *)
Example b64_vectors :
  map (fun s => decode_ascii (Base64.b64encode (encode_utf8 s)))
      [""; "f"; "fo"; "foo"; "foob"; "fooba"; "foobar"]
  = [""; "Zg=="; "Zm8="; "Zm9v"; "Zm9vYg=="; "Zm9vYmE="; "Zm9vYmFy"].
Proof. vm_compute. reflexivity. Qed.

(** [str.replace] on overlapping and empty patterns, as Python answers. *)
Example replace_vectors :
  [replace "=" "%3d" "a=b=="; replace "aa" "x" "aaaaa"; replace "" "-" "abc";
   replace "ab" "" "xabyab"]
  = ["a%3db%3d%3d"; "xxa"; "-a-b-c-"; "xy"].
Proof. vm_compute. reflexivity. Qed.

Example strip_vectors :
  [strip "  a b  "; strip "   "; strip ""; lower "AbC-Z"; upper "poSt"]
  = ["a b"; ""; ""; "abc-z"; "POST"].
Proof. vm_compute. reflexivity. Qed.

(** A signature computed by the Python original: the key "k1", the shared
    code "code", and the clock at 09:41:05 on 7 March 2024. *)
Example checksum_k_vector :
  Checksum.checksum_k (Checksum.mkChecksum "k1" "k2" "long" "code") "SE1234" "HN"
    (World.mkWorld [] (World.mkDatetime 2024 3 7 9 41 5 0)
       (fun _ => Py.Raise (Py.mkExn "ConnectionError" "")))
  = ("5MuDS2E1/GsNbDatochknkUYTGE%3d", [World.ClockRead]).
Proof. vm_compute. reflexivity. Qed.

End Vectors.

(** ** Properties of the signer *)

Module SignerProofs.
Import Text Py World Spec Derived Scenarios.

Lemma prefix_single (o c : ascii) (s : string) :
  prefix (String o EmptyString) (String c s) = Ascii.eqb o c.
Proof.
  cbn [prefix]. destruct (ascii_dec o c) as [->|n].
  - rewrite Ascii.eqb_refl. now destruct s.
  - symmetry. now apply Ascii.eqb_neq.
Qed.

Lemma replace_single (o : ascii) (new s : string) :
  replace (String o EmptyString) new s = subst_char o new s.
Proof.
  unfold replace.
  induction s as [|c s IH]; [reflexivity|].
  cbn [replace_from subst_char]. rewrite prefix_single.
  destruct (Ascii.eqb o c); cbn [length Nat.pred]; now rewrite IH.
Qed.

Lemma append_assoc (a b c : string) : (a ++ b) ++ c = a ++ (b ++ c).
Proof. induction a as [|x a IH]; simpl; [reflexivity | now rewrite IH]. Qed.

Lemma subst_char_app (o : ascii) (new a b : string) :
  subst_char o new (a ++ b) = subst_char o new a ++ subst_char o new b.
Proof.
  induction a as [|c a IH]; [reflexivity|].
  cbn [append subst_char]. now rewrite IH, append_assoc.
Qed.

Lemma url_encode_checksum_escape (s : string) :
  Checksum.url_encode_checksum s = escape s.
Proof.
  unfold Checksum.url_encode_checksum.
  rewrite !replace_single.
  induction s as [|c s IH]; [reflexivity|].
  cbn [subst_char escape]. rewrite subst_char_app, IH. f_equal.
  unfold escape_char.
  rewrite (Ascii.eqb_sym c "="), (Ascii.eqb_sym c " ").
  destruct (Ascii.eqb "=" c) eqn:E1.
  - reflexivity.
  - cbn [subst_char]. destruct (Ascii.eqb " " c); reflexivity.
Qed.

Lemma escape_fixed (s : string) :
  occurs "=" s = false -> occurs " " s = false -> escape s = s.
Proof.
  induction s as [|c s IH]; [reflexivity|].
  cbn [occurs escape]. intros H1 H2.
  apply orb_false_iff in H1 as [E1 H1]. apply orb_false_iff in H2 as [E2 H2].
  unfold escape_char.
  rewrite (Ascii.eqb_sym c "="), (Ascii.eqb_sym c " "), E1, E2.
  simpl. now rewrite IH.
Qed.

Lemma occurs_app (c : ascii) (a b : string) :
  occurs c (a ++ b) = occurs c a || occurs c b.
Proof.
  induction a as [|d a IH]; [reflexivity|].
  simpl. now rewrite IH, orb_assoc.
Qed.

(** The escaped text holds neither [=] nor a space. *)
Lemma escape_clean (s : string) :
  occurs "=" (escape s) = false /\ occurs " " (escape s) = false.
Proof.
  induction s as [|c s [IH1 IH2]]; [split; reflexivity|].
  cbn [escape]. rewrite !occurs_app, IH1, IH2, !orb_false_r.
  unfold escape_char.
  destruct (Ascii.eqb c "=") eqn:E1; [split; reflexivity|].
  destruct (Ascii.eqb c " ") eqn:E2; [split; reflexivity|].
  cbn [occurs]. rewrite !orb_false_r.
  rewrite (Ascii.eqb_sym "=" c), (Ascii.eqb_sym " " c). now split.
Qed.

(** The escape step is idempotent on every input. *)
Lemma url_encode_checksum_idempotent (s : string) :
  Checksum.url_encode_checksum (Checksum.url_encode_checksum s)
  = Checksum.url_encode_checksum s.
Proof.
  rewrite !url_encode_checksum_escape.
  destruct (escape_clean s) as [H1 H2]. now apply escape_fixed.
Qed.

(** C9. For every input string, the escape function of the checksum replaces
    every [=] with the three characters [%3d] and every space with [+] and
    leaves every other character as it is; on an input that holds neither
    [=] nor a space it returns the input, and applying it twice is the same
    as applying it once. *)
Theorem url_encode_checksum_spec (s : string) :
  Checksum.url_encode_checksum s = escape s /\
  (occurs "=" s = false -> occurs " " s = false ->
   Checksum.url_encode_checksum s = s /\
   Checksum.url_encode_checksum (Checksum.url_encode_checksum s)
   = Checksum.url_encode_checksum s).
Proof.
  split; [apply url_encode_checksum_escape|].
  intros H1 H2. split; [|apply url_encode_checksum_idempotent].
  rewrite url_encode_checksum_escape. now apply escape_fixed.
Qed.

Lemma url_encode_checksum_spec_witness :
  Checksum.url_encode_checksum "a+b/c9" = "a+b/c9" /\
  Checksum.url_encode_checksum (Checksum.url_encode_checksum "a+b/c9")
  = Checksum.url_encode_checksum "a+b/c9".
Proof.
  exact (proj2 (url_encode_checksum_spec "a+b/c9") eq_refl eq_refl).
Defined.

(** *** The library routines *)

(** A SHA-1 digest, and so an HMAC-SHA-1 digest, has twenty bytes. *)
Lemma sha1_length (msg : bytes) : List.length (Sha1.sha1 msg) = 20%nat.
Proof. reflexivity. Qed.

Lemma hmac_sha1_length (key msg : bytes) :
  List.length (Hmac.hmac_sha1 key msg) = 20%nat.
Proof. apply sha1_length. Qed.

(** Every byte [b64encode] writes is an ASCII character other than a
    space, which is why the text is one character per byte and the space
    rule of the escape step never fires on a signature. *)
Lemma digit_ascii (i : Z) : 0 <= Base64.digit i < 128 /\ Base64.digit i <> 32.
Proof.
  unfold Base64.digit. generalize (Z.to_nat i). intros n.
  do 64 (destruct n as [|n]; [vm_compute; repeat split; discriminate|]).
  vm_compute; repeat split; discriminate.
Qed.

Lemma b64encode_ascii (b : bytes) : Forall ascii_no_space (Base64.b64encode b).
Proof.
  assert (Hpad : ascii_no_space Base64.pad_byte)
    by (unfold ascii_no_space, Base64.pad_byte; lia).
  assert (H : Forall ascii_no_space (Base64.b64encode b) /\
              (forall x, Forall ascii_no_space (Base64.b64encode (x :: b))) /\
              (forall x y, Forall ascii_no_space (Base64.b64encode (x :: y :: b)))).
  { induction b as [|z b (IH0 & IH1 & IH2)].
    - repeat split; intros; cbn [Base64.b64encode];
        repeat constructor; try apply digit_ascii; try apply Hpad.
    - split; [apply IH1|]. split; [intros x; apply IH2|].
      intros x y. cbn [Base64.b64encode].
      repeat (constructor; [apply digit_ascii|]). exact IH0. }
  apply H.
Qed.

Lemma decode_ascii_no_space (b : bytes) :
  Forall ascii_no_space b -> occurs " " (decode_ascii b) = false.
Proof.
  induction 1 as [|x b [Hx Hne] _ IH]; [reflexivity|].
  cbn [decode_ascii occurs]. rewrite IH, orb_false_r.
  apply Ascii.eqb_neq. intros Heq.
  apply (f_equal ord) in Heq. unfold ord, chr in Heq.
  rewrite N_ascii_embedding in Heq by lia.
  rewrite Z2N.id in Heq by lia. cbn in Heq. lia.
Qed.

Lemma generate_hmac_no_space (key message : string) :
  occurs " " (Checksum.generate_hmac key message) = false.
Proof. apply decode_ascii_no_space, b64encode_ascii. Qed.

(** *** The three variants *)

(** C1. For every choice of the four secrets, every input and every clock
    reading, each signing variant returns the signature of its template:
    variant K signs identifier, shared code, campus code and timestamp slot
    under the main key; variant Y signs the same template with the username
    as identifier under the alternative key; variant A signs the long key,
    the parameter and the timestamp slot under the main key.  The signature
    is the escaped base64 text of the HMAC-SHA-1 digest of the concatenated
    slots, and empty slots are allowed. *)
Theorem checksum_variants_sign_templates
    (self : Checksum.checksum) (identifier username campus_code parameter : string)
    (w : world) :
  let slot := Checksum.strftime (now w) in
  value (Checksum.checksum_k self identifier campus_code) w
  = signature (Checksum.SECRET_KEY_MAIN self)
      [identifier; Checksum.SUPER_SECRET_CODE self; campus_code; slot] /\
  value (Checksum.checksum_y self username campus_code) w
  = signature (Checksum.SECRET_KEY_ALT self)
      [username; Checksum.SUPER_SECRET_CODE self; campus_code; slot] /\
  value (Checksum.checksum_a self parameter) w
  = signature (Checksum.SECRET_KEY_MAIN self)
      [Checksum.SECRET_KEY_LONG self; parameter; slot] /\
  value (Checksum.checksum_k self "" campus_code) w
  = signature (Checksum.SECRET_KEY_MAIN self)
      [""; Checksum.SUPER_SECRET_CODE self; campus_code; slot].
Proof.
  unfold value, Checksum.checksum_k, Checksum.checksum_y, Checksum.checksum_a,
    Checksum.get_timestamp, bind, ret, signature, Checksum.generate_hmac.
  cbn [fst String.concat append].
  rewrite !url_encode_checksum_escape. repeat split.
Qed.

(** Signing reads the clock once and does nothing else. *)
Lemma checksum_traces (self : Checksum.checksum) (a b : string) (w : world) :
  trace (Checksum.checksum_k self a b) w = [ClockRead] /\
  trace (Checksum.checksum_y self a b) w = [ClockRead] /\
  trace (Checksum.checksum_a self a) w = [ClockRead].
Proof. repeat split. Qed.

Lemma strftime_same_hour (t1 t2 : datetime) :
  same_hour t1 t2 -> Checksum.strftime t1 = Checksum.strftime t2.
Proof.
  intros (Hy & Hm & Hd & Hh). unfold Checksum.strftime.
  now rewrite Hy, Hm, Hd, Hh.
Qed.

(** A signature depends on the clock through the timestamp slot only. *)
Lemma checksum_k_slot (self : Checksum.checksum) (a b : string) (w1 w2 : world) :
  value Checksum.get_timestamp w1 = value Checksum.get_timestamp w2 ->
  Checksum.checksum_k self a b w1 = Checksum.checksum_k self a b w2.
Proof.
  unfold value, Checksum.checksum_k, Checksum.get_timestamp, bind, ret.
  cbn [fst]. now intros ->.
Qed.

Lemma checksum_y_slot (self : Checksum.checksum) (a b : string) (w1 w2 : world) :
  value Checksum.get_timestamp w1 = value Checksum.get_timestamp w2 ->
  Checksum.checksum_y self a b w1 = Checksum.checksum_y self a b w2.
Proof.
  unfold value, Checksum.checksum_y, Checksum.get_timestamp, bind, ret.
  cbn [fst]. now intros ->.
Qed.

Lemma checksum_a_slot (self : Checksum.checksum) (a : string) (w1 w2 : world) :
  value Checksum.get_timestamp w1 = value Checksum.get_timestamp w2 ->
  Checksum.checksum_a self a w1 = Checksum.checksum_a self a w2.
Proof.
  unfold value, Checksum.checksum_a, Checksum.get_timestamp, bind, ret.
  cbn [fst]. now intros ->.
Qed.

(** C7. Signing is deterministic and windowed by the hour: with the same
    secrets and inputs, two runs of variant K that read the same timestamp
    slot return the same text; and two clock readings in the same hour give
    the same timestamp slot, hence the same signature of every variant on
    the same inputs, whatever the minutes, seconds and microseconds are. *)
Theorem signing_deterministic_hour_window
    (self : Checksum.checksum) (roll_number campus_code parameter : string)
    (w1 w2 : world) :
  (value Checksum.get_timestamp w1 = value Checksum.get_timestamp w2 ->
   value (Checksum.checksum_k self roll_number campus_code) w1
   = value (Checksum.checksum_k self roll_number campus_code) w2) /\
  (same_hour (now w1) (now w2) ->
   value Checksum.get_timestamp w1 = value Checksum.get_timestamp w2 /\
   value (Checksum.checksum_k self roll_number campus_code) w1
   = value (Checksum.checksum_k self roll_number campus_code) w2 /\
   value (Checksum.checksum_y self roll_number campus_code) w1
   = value (Checksum.checksum_y self roll_number campus_code) w2 /\
   value (Checksum.checksum_a self parameter) w1
   = value (Checksum.checksum_a self parameter) w2).
Proof.
  assert (Hslot : same_hour (now w1) (now w2) ->
                  value Checksum.get_timestamp w1 = value Checksum.get_timestamp w2).
  { intros H. unfold value, Checksum.get_timestamp. cbn [fst].
    now apply strftime_same_hour. }
  split.
  - intros H. unfold value. apply f_equal, checksum_k_slot, H.
  - intros H. specialize (Hslot H). split; [exact Hslot|].
    unfold value. split; [|split].
    + apply f_equal, checksum_k_slot, Hslot.
    + apply f_equal, checksum_y_slot, Hslot.
    + apply f_equal, checksum_a_slot, Hslot.
Qed.

Lemma signing_deterministic_hour_window_witness :
  value Checksum.get_timestamp morning_early
  = value Checksum.get_timestamp morning_late /\
  value (Checksum.checksum_k (Checksum.mkChecksum "k1" "k2" "long" "code")
           "SE1234" "HN") morning_early
  = value (Checksum.checksum_k (Checksum.mkChecksum "k1" "k2" "long" "code")
             "SE1234" "HN") morning_late.
Proof.
  pose proof (proj2 (signing_deterministic_hour_window
                       (Checksum.mkChecksum "k1" "k2" "long" "code")
                       "SE1234" "HN" "1709776800" morning_early morning_late)
                    (conj eq_refl (conj eq_refl (conj eq_refl eq_refl)))) as H.
  exact (conj (proj1 H) (proj1 (proj2 H))).
Defined.

End SignerProofs.

(** ** Properties of the client *)

Module ClientProofs.
Import Text Py World Spec Client Derived Scenarios.

Lemma make_request_spec (method url : string) (p : option params)
    (data : option dict) (use_json : bool) (w : world) :
  Api._make_request method url p data use_json w =
  match dispatch method url p data use_json with
  | Ok c => (respond w c, [HttpCall c])
  | Raise e => (Api.failure_envelope e, [])
  end.
Proof.
  unfold Api._make_request, dispatch, respond, envelope_of, json_data_of,
    try_except, bind_r, bind, ret, Api.session_get, Api.session_post,
    Api.session_call.
  destruct (String.eqb (upper method) "GET").
  - destruct (send w _) as [r|e]; [|reflexivity].
    destruct (Api.classify _ _); reflexivity.
  - destruct (String.eqb (upper method) "POST"); [|reflexivity].
    destruct use_json;
      (destruct (send w _) as [r|e]; [|reflexivity];
       destruct (Api.classify _ _); reflexivity).
Qed.

Lemma make_request_get (url : string) (p : option params)
    (data : option dict) (use_json : bool) (w : world) :
  Api._make_request "GET" url p data use_json w
  = (respond w (SessionGet url p), [HttpCall (SessionGet url p)]).
Proof. rewrite make_request_spec. reflexivity. Qed.

Lemma make_request_post (url : string) (p : option params)
    (data : option dict) (w : world) :
  Api._make_request "POST" url p data true w
  = (respond w (SessionPost url p (JsonBody data)),
     [HttpCall (SessionPost url p (JsonBody data))]).
Proof. rewrite make_request_spec. reflexivity. Qed.

(** Opens the method an operation stands for: the signing step, then the
    one request. *)
Ltac open_method :=
  unfold Api.get_student_by_id, Api.get_student_rate, Api.add_rate,
    Api.get_balance, Api.get_fee_by_roll, Api.get_application,
    Api.retrieve_image, Api.get_diemphongtrao, Api.get_activity_student,
    Api.get_activity_student_by_week, Api.get_notification_by_roll,
    Api.get_all_active_campus, Api.get_version, Api.get_campus_info,
    Api.check_open_feedback, Api.check_update_profile,
    Api.get_required_survey, Api.get_semester, Api.get_subject_by_semester,
    Api.get_week_by_date, Api.get_student_attendances, Api.get_exam_schedule,
    Api.get_student_mark, Api.get_top10_news;
  unfold Checksum.checksum_k, Checksum.checksum_y, Checksum.checksum_a,
    Checksum.get_timestamp, bind, ret;
  cbv beta iota;
  first [rewrite make_request_get | rewrite make_request_post].

(** Every operation makes exactly one HTTP call, which does not depend on
    what the transport answers, and returns the envelope for that call. *)
Lemma perform_spec (self : Api.API) (op : operation) (w : world) :
  exists c,
    calls (trace (perform self op) w) = [c] /\
    value (perform self op) w = respond w c.
Proof.
  unfold value, trace.
  destruct op; cbn [perform];
    open_method;
    eexists; split; reflexivity.
Qed.

Lemma make_request_calls (method url : string) (p : option params)
    (data : option dict) (use_json : bool) (w : world) :
  calls (trace (Api._make_request method url p data use_json) w)
  = match dispatch method url p data use_json with
    | Ok c => [c]
    | Raise _ => []
    end.
Proof.
  unfold trace. rewrite make_request_spec.
  destruct (dispatch method url p data use_json); reflexivity.
Qed.

Lemma make_request_value (method url : string) (p : option params)
    (data : option dict) (use_json : bool) (w : world) (c : http_call) :
  In c (calls (trace (Api._make_request method url p data use_json) w)) ->
  value (Api._make_request method url p data use_json) w = respond w c.
Proof.
  rewrite make_request_calls. unfold value. rewrite make_request_spec.
  destruct (dispatch method url p data use_json) as [c'|e]; [|intros []].
  intros [->|[]]. reflexivity.
Qed.

(** *** Unsupported methods *)

(** C10. For every method string whose upper-case form is neither GET nor
    POST, [_make_request] makes no HTTP call and still returns: the
    unsupported-method error raised inside the [try] block is turned by the
    blanket handler into the envelope of a failure, with [success] false,
    [status_code] and [data] [None], an [error] string and no
    [raw_response], which has the same keys as the envelope of a transport
    failure. *)
Theorem unsupported_method_envelope (method url : string) (p : option params)
    (data : option dict) (use_json : bool) (w : world)
    (Hget : upper method <> "GET") (Hpost : upper method <> "POST") :
  let envelope := value (Api._make_request method url p data use_json) w in
  trace (Api._make_request method url p data use_json) w = [] /\
  envelope
  = Api.failure_envelope (mkExn "ValueError" ("Unsupported HTTP method: " ++ method)) /\
  lookup "success" envelope = Some (PBool false) /\
  lookup "status_code" envelope = Some PNone /\
  lookup "data" envelope = Some PNone /\
  lookup "error" envelope = Some (PStr ("Unsupported HTTP method: " ++ method)) /\
  lookup "raw_response" envelope = None /\
  (forall e, map fst envelope = map fst (Api.failure_envelope e)).
Proof.
  apply String.eqb_neq in Hget, Hpost.
  unfold value, trace. rewrite make_request_spec. unfold dispatch.
  rewrite Hget, Hpost. cbn [fst snd]. repeat split.
Qed.

Lemma unsupported_method_envelope_witness :
  trace (Api._make_request "put" "https://host/x" None None true)
        morning_early = [] /\
  lookup "error"
    (value (Api._make_request "put" "https://host/x" None None true)
           morning_early)
  = Some (PStr "Unsupported HTTP method: put").
Proof.
  pose proof (unsupported_method_envelope "put" "https://host/x" None None true
                morning_early
                ltac:(discriminate) ltac:(discriminate)) as H.
  cbv zeta in H.
  exact (conj (proj1 H) (proj1 (proj2 (proj2 (proj2 (proj2 (proj2 H))))))).
Defined.

(** *** Transport failures *)

(** X11. When the transport raises, whatever the operation, the operation
    does not raise: it returns the failure envelope, with [success] false,
    [status_code] and [data] [None], the exception's text under [error],
    and no [raw_response]. *)
Lemma transport_failure_envelope (self : Api.API) (op : operation) (w : world)
    (e : exn) :
  (forall c, In c (calls (trace (perform self op) w)) -> send w c = Raise e) ->
  let envelope := value (perform self op) w in
  envelope = Api.failure_envelope e /\
  lookup "success" envelope = Some (PBool false) /\
  lookup "status_code" envelope = Some PNone /\
  lookup "data" envelope = Some PNone /\
  lookup "error" envelope = Some (PStr (exn_str e)) /\
  lookup "raw_response" envelope = None.
Proof.
  intros H. destruct (perform_spec self op w) as (c & Hc & Hv).
  cbv zeta. rewrite Hv. unfold respond.
  rewrite (H c) by (rewrite Hc; now left). repeat split.
Qed.

(** *** Responses *)

(** On a JSON object the flag is the status test and, when the object has a
    [code] field, the test of that field against the string "200". *)
Lemma classify_object (status : Z) (d : dict) :
  Api.classify status (PDict d)
  = Ok ((status =? 200)
        && match lookup "code" d with
           | Some v => eq_str v "200"
           | None => true
           end).
Proof.
  unfold Api.classify, Api.has_code.
  destruct d as [|[k v] d]; cbn [truthy]; [now rewrite andb_true_r|].
  unfold py_in, getitem.
  destruct (lookup "code" ((k, v) :: d)); destruct (status =? 200); reflexivity.
Qed.

Lemma classify_raises_iff (status : Z) (v : pyval) :
  (exists e, Api.classify status v = Raise e) <-> code_test_raises status v = true.
Proof.
  destruct v as [|b|n|x|s|l|d];
    [| | | | | |
     rewrite classify_object; cbn [code_test_raises];
     split; [intros [e He]; discriminate | discriminate]];
    unfold Api.classify, Api.has_code; cbn [truthy code_test_raises].
  - split; [intros [e He]; discriminate | discriminate].
  - destruct b; cbn [py_in]; split; try discriminate; eauto.
    intros [e He]; discriminate.
  - destruct (n =? 0); cbn [negb py_in]; split; try discriminate; eauto.
    intros [e He]; discriminate.
  - destruct x; cbn [py_in]; split; try discriminate; eauto.
    intros [e He]; discriminate.
  - destruct (negb (String.eqb s "")) eqn:Es; cbn [py_in getitem].
    + destruct (Text.contains "code" s), (status =? 200);
        cbn [andb]; split; try discriminate; eauto;
        intros [e He]; discriminate.
    + apply negb_false_iff, String.eqb_eq in Es. subst s.
      rewrite andb_false_r. split; [intros [e He]; discriminate | discriminate].
  - destruct l as [|x l]; cbn [py_in getitem].
    + rewrite andb_false_r. split; [intros [e He]; discriminate | discriminate].
    + destruct (existsb _ (x :: l)), (status =? 200);
        cbn [andb]; split; try discriminate; eauto;
        intros [e He]; discriminate.
Qed.

(** When the body is a JSON object, [null], or not JSON at all, the
    envelope carries the status, the parsed body and the raw text, and its
    flag is true exactly when the status is 200 and the [code] field, if
    there is one, is the string "200". *)
Lemma envelope_of_object (r : response) (d : dict) :
  json r = Ok (PDict d) ->
  envelope_of r
  = [("success", PBool ((status_code r =? 200)
                        && match lookup "code" d with
                           | Some v => eq_str v "200"
                           | None => true
                           end));
     ("status_code", PInt (status_code r));
     ("data", PDict d);
     ("raw_response", PStr (text r))].
Proof.
  intros H. unfold envelope_of, json_data_of. rewrite H.
  now rewrite classify_object.
Qed.

Lemma envelope_of_unparseable (r : response) (e : exn) :
  json r = Raise e ->
  envelope_of r
  = [("success", PBool (status_code r =? 200));
     ("status_code", PInt (status_code r));
     ("data", PNone);
     ("raw_response", PStr (text r))].
Proof. intros H. unfold envelope_of, json_data_of. now rewrite H. Qed.

Lemma application_failure_envelope :
  value (Api.get_balance api0 "HN" "SE1234" "t") (answering denied)
  = [("success", PBool false);
     ("status_code", PInt 200);
     ("data", PDict [("code", PStr "400"); ("message", PStr "denied")]);
     ("raw_response", PStr (text denied))].
Proof. vm_compute. reflexivity. Qed.

(** C2, at a response the success rule does not cover.  The transport
    answers HTTP 200 with the JSON body [5]: the body has no [code] field
    and the status is 200, yet the envelope says [success] false and carries
    no status: the test ['code' in json_data] raises a [TypeError] on the
    number, and the blanket handler reports it as a failure of the call. *)
Theorem success_flag_on_number_body :
  let w := answering (mkResponse 200 "5" (Ok (PInt 5))) in
  let envelope := value (Api.get_balance api0 "HN" "SE1234" "t") w in
  lookup "success" envelope = Some (PBool false) /\
  lookup "status_code" envelope = Some PNone /\
  lookup "error" envelope = Some (PStr "argument of type 'int' is not iterable").
Proof. vm_compute. repeat split. Qed.

(** C3, at the same kind of response.  The transport returns HTTP 200 with
    the JSON body [true] and raises nothing, yet the envelope has an [error]
    field and no [raw_response] field, like the envelope of a transport
    failure. *)
Theorem envelope_fields_on_boolean_body :
  let w := answering (mkResponse 200 "true" (Ok (PBool true))) in
  let envelope := value (Api.check_open_feedback api0 "HN" "SE1234" "t") w in
  (forall c, send w c = Ok (mkResponse 200 "true" (Ok (PBool true)))) /\
  has_key "error" envelope = true /\
  has_key "raw_response" envelope = false /\
  envelope
  = Api.failure_envelope (mkExn "TypeError" "argument of type 'bool' is not iterable").
Proof. vm_compute. repeat split. Qed.

(** C8. For every response whose body is not JSON, the envelope has [data]
    [None], the status code and the raw text, and a flag that depends on the
    status only: the failure to parse is not a failure of the call, and with
    status 200 the flag is true. *)
Theorem unparseable_body_envelope (method url : string) (p : option params)
    (data : option dict) (use_json : bool) (w : world) (c : http_call)
    (r : response) (e : exn)
    (Hcall : In c (calls (trace (Api._make_request method url p data use_json) w)))
    (Hsend : send w c = Ok r)
    (Hjson : json r = Raise e) :
  let envelope := value (Api._make_request method url p data use_json) w in
  envelope
  = [("success", PBool (status_code r =? 200));
     ("status_code", PInt (status_code r));
     ("data", PNone);
     ("raw_response", PStr (text r))] /\
  (status_code r = 200 -> lookup "success" envelope = Some (PBool true)) /\
  lookup "data" envelope = Some PNone /\
  lookup "raw_response" envelope = Some (PStr (text r)) /\
  lookup "error" envelope = None.
Proof.
  cbv zeta. rewrite (make_request_value _ _ _ _ _ _ _ Hcall).
  unfold respond. rewrite Hsend, (envelope_of_unparseable r e Hjson).
  repeat split. intros ->. reflexivity.
Qed.

Lemma unparseable_body_envelope_witness :
  value (Api._make_request "GET" "https://api.example/GetVersion" None None true)
        (answering html_page)
  = [("success", PBool true);
     ("status_code", PInt 200);
     ("data", PNone);
     ("raw_response", PStr "<html>Bad gateway</html>")].
Proof.
  exact (proj1 (unparseable_body_envelope
                  "GET" "https://api.example/GetVersion" None None true
                  (answering html_page)
                  (SessionGet "https://api.example/GetVersion" None)
                  html_page
                  (mkExn "JSONDecodeError" "Expecting value: line 1 column 1 (char 0)")
                  (or_introl eq_refl) eq_refl eq_refl)).
Defined.

(** The same holds for every operation of the client. *)
Lemma unparseable_body_every_operation (self : Api.API) (op : operation)
    (w : world) (r : response) (e : exn) :
  (forall c, In c (calls (trace (perform self op) w)) -> send w c = Ok r) ->
  json r = Raise e ->
  value (perform self op) w
  = [("success", PBool (status_code r =? 200));
     ("status_code", PInt (status_code r));
     ("data", PNone);
     ("raw_response", PStr (text r))].
Proof.
  intros H Hjson. destruct (perform_spec self op w) as (c & Hc & Hv).
  rewrite Hv. unfold respond. rewrite (H c) by (rewrite Hc; now left).
  now apply envelope_of_unparseable with (e := e).
Qed.

(** X12. With a JSON object for a body, every operation reports success
    exactly when the status is 200 and the [code] field, if present, is the
    string "200" (a number 200 does not count); the envelope carries the
    status and the raw text and has no [error]. *)
Lemma success_flag_every_operation (self : Api.API) (op : operation)
    (w : world) (r : response) (d : dict) :
  (forall c, In c (calls (trace (perform self op) w)) -> send w c = Ok r) ->
  json r = Ok (PDict d) ->
  lookup "success" (value (perform self op) w)
  = Some (PBool ((status_code r =? 200)
                 && match lookup "code" d with
                    | Some v => eq_str v "200"
                    | None => true
                    end)) /\
  lookup "status_code" (value (perform self op) w) = Some (PInt (status_code r)) /\
  lookup "raw_response" (value (perform self op) w) = Some (PStr (text r)) /\
  lookup "error" (value (perform self op) w) = None.
Proof.
  intros H Hjson. destruct (perform_spec self op w) as (c & Hc & Hv).
  rewrite Hv. unfold respond. rewrite (H c) by (rewrite Hc; now left).
  rewrite (envelope_of_object r d Hjson). repeat split.
Qed.

(** *** The request of [get_week_by_date] *)

(** C5. For every timestamp argument, [get_week_by_date] computes the
    variant-A checksum over the date value, which reads the clock, and then
    drops it: the rest of the method does not depend on the checksum, and
    the one request it transmits is a GET whose parameters are the [date]
    parameter alone, with no [checksum] parameter. *)
Theorem get_week_by_date_sends_date_only
    (self : Api.API) (timestamp : string) (w : world) :
  let url := format_opt (Api.BASE_URL self) ++ "/GetWeekByDate" in
  let request := SessionGet url (Some [("date", timestamp)]) in
  Api.get_week_by_date self timestamp
  = (checksum <- Checksum.checksum_a (Api.checksum self) timestamp ;;
     Api._make_request "GET" url (Some [("date", timestamp)]) None true) /\
  trace (Api.get_week_by_date self timestamp) w
  = (trace (Checksum.checksum_a (Api.checksum self) timestamp) w
     ++ [HttpCall request])%list /\
  calls (trace (Api.get_week_by_date self timestamp) w) = [request] /\
  call_params request = [("date", timestamp)] /\
  has_key "checksum" (call_params request) = false /\
  value (Api.get_week_by_date self timestamp) w = respond w request.
Proof.
  cbv zeta. split; [reflexivity|].
  unfold trace, value, Api.get_week_by_date, Checksum.checksum_a,
    Checksum.get_timestamp, bind, ret.
  cbv beta iota. rewrite make_request_get. repeat split.
Qed.

(** X10. The request of every operation has a [checksum] parameter, except
    those of [get_week_by_date], [get_all_active_campus] and [get_version],
    which have none. *)
Lemma checksum_parameter_presence (self : Api.API) (op : operation) (w : world) :
  forall c, In c (calls (trace (perform self op) w)) ->
            has_key "checksum" (call_params c) = sends_checksum op.
Proof.
  intros c. unfold trace.
  destruct op; cbn [perform sends_checksum];
    open_method;
    cbn [snd app calls]; (intros [<-|[]]); reflexivity.
Qed.

(** *** The request of [get_required_survey] *)

Lemma isspace_lower_char (c : ascii) : isspace (lower_char c) = isspace c.
Proof. destruct c as [[] [] [] [] [] [] [] []]; reflexivity. Qed.

Lemma lstrip_lower (s : string) : lstrip (lower s) = lower (lstrip s).
Proof.
  induction s as [|c s IH]; [reflexivity|].
  cbn [lower lstrip]. rewrite isspace_lower_char.
  destruct (isspace c); [exact IH | reflexivity].
Qed.

Lemma rstrip_lower (s : string) : rstrip (lower s) = lower (rstrip s).
Proof.
  induction s as [|c s IH]; [reflexivity|].
  cbn [lower rstrip]. rewrite IH, isspace_lower_char.
  destruct (rstrip s); cbn [lower]; [|reflexivity].
  destruct (isspace c); reflexivity.
Qed.

(** Lower-casing and trimming commute: the normal form is the same in
    either order. *)
Lemma strip_lower (s : string) : strip (lower s) = lower (strip s).
Proof. unfold strip. now rewrite lstrip_lower, rstrip_lower. Qed.

(** C6. For every username, [get_required_survey] lower-cases and trims the
    username and uses that normal form twice: as the identifier of the
    variant-Y signed message (with an empty campus code) and as the
    [username] parameter of the one request it transmits, a GET on the
    survey endpoint built from [GOOGLE_AUTH_URL]; the input
    "  USER@Example.com " is signed and transmitted as "user@example.com". *)
Theorem get_required_survey_normalizes
    (self : Api.API) (username : string) (w : world) :
  let normal := strip (lower username) in
  let url := format_opt (Api.GOOGLE_AUTH_URL self) ++ "/GetRequiredSurvey" in
  let checksum :=
    signature (Checksum.SECRET_KEY_ALT (Api.checksum self))
      [normal; Checksum.SUPER_SECRET_CODE (Api.checksum self); "";
       Checksum.strftime (now w)] in
  calls (trace (Api.get_required_survey self username) w)
  = [SessionGet url (Some [("username", normal); ("checksum", checksum)])] /\
  checksum = value (Checksum.checksum_y (Api.checksum self) normal "") w /\
  strip (lower "  USER@Example.com ") = "user@example.com" /\
  calls (trace (Api.get_required_survey self "  USER@Example.com ") w)
  = [SessionGet url
       (Some [("username", "user@example.com");
              ("checksum",
               signature (Checksum.SECRET_KEY_ALT (Api.checksum self))
                 ["user@example.com";
                  Checksum.SUPER_SECRET_CODE (Api.checksum self); "";
                  Checksum.strftime (now w)])])].
Proof.
  assert (H : forall u,
    calls (trace (Api.get_required_survey self u) w)
    = [SessionGet (format_opt (Api.GOOGLE_AUTH_URL self) ++ "/GetRequiredSurvey")
         (Some [("username", strip (lower u));
                ("checksum",
                 signature (Checksum.SECRET_KEY_ALT (Api.checksum self))
                   [strip (lower u);
                    Checksum.SUPER_SECRET_CODE (Api.checksum self); "";
                    Checksum.strftime (now w)])])]).
  { intros u.
    unfold trace, Api.get_required_survey, Checksum.checksum_y,
      Checksum.get_timestamp, bind, ret.
    cbv beta iota. rewrite make_request_get.
    rewrite SignerProofs.url_encode_checksum_escape. reflexivity. }
  cbv zeta. split; [apply H|]. split.
  - unfold value, Checksum.checksum_y, Checksum.get_timestamp, bind, ret.
    cbn [fst]. now rewrite SignerProofs.url_encode_checksum_escape.
  - split; [reflexivity|]. apply (H "  USER@Example.com ").
Qed.

(** *** Construction *)

Lemma unset_falsy (env : environ) (name : string) :
  unset env name <-> truthy_opt (getenv env name) = false.
Proof.
  unfold unset. destruct (getenv env name) as [s|]; cbn [truthy_opt].
  - rewrite negb_false_iff, String.eqb_eq. split.
    + intros [H|H]; [discriminate | now injection H].
    + intros ->. now right.
  - split; [reflexivity | now left].
Qed.

Lemma checksum_init_missing (w : world) (name : string) :
  In name secret_names -> unset (environment w) name ->
  Checksum.__init__ w = (Raise Checksum.missing_secrets, []).
Proof.
  intros Hin Hunset. apply unset_falsy in Hunset.
  unfold Checksum.__init__. cbn [forallb].
  destruct Hin as [<-|[<-|[<-|[<-|[]]]]]; rewrite Hunset;
    rewrite ?andb_false_r; reflexivity.
Qed.

Lemma checksum_init_complete (w : world) :
  (forall name, In name secret_names -> ~ unset (environment w) name) ->
  exists c, Checksum.__init__ w = (Ok c, []) /\
    Some (Checksum.SECRET_KEY_MAIN c) = getenv (environment w) "SECRET_KEY_MAIN" /\
    Some (Checksum.SECRET_KEY_ALT c) = getenv (environment w) "SECRET_KEY_ALT" /\
    Some (Checksum.SECRET_KEY_LONG c) = getenv (environment w) "SECRET_KEY_LONG" /\
    Some (Checksum.SUPER_SECRET_CODE c) = getenv (environment w) "SUPER_SECRET_CODE".
Proof.
  intros H.
  assert (Ht : forall name, In name secret_names ->
                            truthy_opt (getenv (environment w) name) = true).
  { intros name Hin. specialize (H name Hin). rewrite unset_falsy in H.
    now destruct (truthy_opt (getenv (environment w) name)). }
  pose proof (Ht "SECRET_KEY_MAIN" ltac:(simpl; tauto)) as H1.
  pose proof (Ht "SECRET_KEY_ALT" ltac:(simpl; tauto)) as H2.
  pose proof (Ht "SECRET_KEY_LONG" ltac:(simpl; tauto)) as H3.
  pose proof (Ht "SUPER_SECRET_CODE" ltac:(simpl; tauto)) as H4.
  unfold Checksum.__init__. cbn [forallb]. rewrite H1, H2, H3, H4.
  cbn [andb negb]. eexists. split; [reflexivity|].
  destruct (getenv (environment w) "SECRET_KEY_MAIN"); [|discriminate].
  destruct (getenv (environment w) "SECRET_KEY_ALT"); [|discriminate].
  destruct (getenv (environment w) "SECRET_KEY_LONG"); [|discriminate].
  destruct (getenv (environment w) "SUPER_SECRET_CODE"); [|discriminate].
  repeat split.
Qed.

Lemma api_init_spec (cls : Api.API_class) (session : list (string * string))
    (w : world) :
  Api.__init__ cls session w
  = if negb (truthy_opt (getenv (environment w) "AUTHEN_KEY"))
    then (Raise Api.missing_authen_key, [])
    else match fst (Checksum.__init__ w) with
         | Raise e => (Raise e, [])
         | Ok c =>
             (Ok (Api.mkAPI (Api.cls_BASE_URL cls) (Api.cls_GOOGLE_AUTH_URL cls)
                    (format_opt (getenv (environment w) "AUTHEN_KEY")) c
                    (Api.headers_update session
                       [("Content-Type", "application/json");
                        ("User-Agent", "okhttp/3.12.1")])), [])
         end.
Proof.
  unfold Api.__init__.
  destruct (negb (truthy_opt (getenv (environment w) "AUTHEN_KEY"))); [reflexivity|].
  unfold bind_r, bind, ret, Checksum.__init__.
  destruct (negb (forallb truthy_opt _)); reflexivity.
Qed.

Lemma key_unset (env : environ) :
  unset env "AUTHEN_KEY" -> negb (truthy_opt (getenv env "AUTHEN_KEY")) = true.
Proof. intros H. apply unset_falsy in H. now rewrite H. Qed.

Lemma key_set (env : environ) :
  ~ unset env "AUTHEN_KEY" -> negb (truthy_opt (getenv env "AUTHEN_KEY")) = false.
Proof.
  intros H. rewrite unset_falsy in H.
  now destruct (truthy_opt (getenv env "AUTHEN_KEY")).
Qed.

(** C4, as the code has it.  Construction makes no network call and computes
    no signature.  Constructing the checksum component raises when any of
    the four secrets is absent or empty; constructing the client raises when
    the authentication key is absent or empty, and when a secret is; the
    base endpoint URL is not checked: with the key and the four secrets set,
    constructing the client succeeds whatever the class attributes are,
    that is, whether or not the URL is set. *)
Theorem construction_checks (cls : Api.API_class)
    (session : list (string * string)) (w : world) :
  let env := environment w in
  trace Checksum.__init__ w = [] /\
  trace (Api.__init__ cls session) w = [] /\
  (forall name, In name secret_names -> unset env name ->
     value Checksum.__init__ w = Raise Checksum.missing_secrets) /\
  (unset env "AUTHEN_KEY" ->
   value (Api.__init__ cls session) w = Raise Api.missing_authen_key) /\
  (~ unset env "AUTHEN_KEY" ->
   forall name, In name secret_names -> unset env name ->
     value (Api.__init__ cls session) w = Raise Checksum.missing_secrets) /\
  (~ unset env "AUTHEN_KEY" ->
   (forall name, In name secret_names -> ~ unset env name) ->
   exists api, value (Api.__init__ cls session) w = Ok api).
Proof.
  cbv zeta. unfold value, trace.
  split; [|split; [|split; [|split; [|split]]]].
  - unfold Checksum.__init__. now destruct (negb (forallb truthy_opt _)).
  - rewrite api_init_spec.
    destruct (negb (truthy_opt _)); [reflexivity|].
    now destruct (fst (Checksum.__init__ w)).
  - intros name Hin Hun. now rewrite (checksum_init_missing w name Hin Hun).
  - intros Hun. now rewrite api_init_spec, (key_unset _ Hun).
  - intros Hset name Hin Hun.
    now rewrite api_init_spec, (key_set _ Hset), (checksum_init_missing w name Hin Hun).
  - intros Hset Hall. rewrite api_init_spec, (key_set _ Hset).
    destruct (checksum_init_complete w Hall) as (c & Hc & _).
    rewrite Hc. cbn [fst]. eexists. reflexivity.
Qed.

Lemma construction_checks_witness :
  value Checksum.__init__ without_long_key = Raise Checksum.missing_secrets /\
  value (Api.__init__ (Api.class_body (environment without_long_key)) fresh_session)
        without_long_key
  = Raise Checksum.missing_secrets.
Proof.
  pose proof (construction_checks
                (Api.class_body (environment without_long_key)) fresh_session
                without_long_key) as H.
  cbv zeta in H.
  destruct H as (_ & _ & H1 & _ & H2 & _).
  split.
  - exact (H1 "SECRET_KEY_LONG" ltac:(simpl; tauto) (or_introl eq_refl)).
  - refine (H2 _ "SECRET_KEY_LONG" ltac:(simpl; tauto) (or_introl eq_refl)).
    intros [H|H]; discriminate H.
Defined.

(** C4 fails as stated: with no base endpoint URL in the environment, at
    import and at construction, the client is constructed, and it then
    calls URLs that start with the text None. *)
Lemma missing_base_url_is_not_fatal :
  getenv (environment without_base_url) "BASE_URL" = None /\
  Api.__init__ (Api.class_body (environment without_base_url)) fresh_session
    without_base_url
  = (Ok client_without_url, []) /\
  Api.BASE_URL client_without_url = None /\
  calls (trace (Api.get_version client_without_url) without_base_url)
  = [SessionGet "None/GetVersion" None].
Proof. vm_compute. repeat split. Qed.

End ClientProofs.

(** ** Further properties of the signer *)

Module SignerFacts.
Import Text Py World Spec Derived Scenarios SignerProofs.

(** *** The escape step *)

Lemma length_append (a b : string) :
  length (a ++ b) = (length a + length b)%nat.
Proof. induction a as [|c a IH]; simpl; [reflexivity | now rewrite IH]. Qed.

Lemma escape_length (s : string) :
  length (escape s) = (length s + 2 * count_char "=" s)%nat.
Proof.
  induction s as [|c s IH]; [reflexivity|].
  cbn [escape count_char length]. rewrite length_append, IH.
  unfold escape_char. rewrite (Ascii.eqb_sym c "=").
  destruct (Ascii.eqb "=" c); [cbn [length]; lia|].
  destruct (Ascii.eqb c " "); cbn [length]; lia.
Qed.

(** X1. Whatever the input, the text [url_encode_checksum] returns holds no
    [=] and no space, applying the function again changes nothing, and the
    result is the input's length plus two for every [=] in the input. *)
Theorem url_encode_checksum_output (s : string) :
  occurs "=" (Checksum.url_encode_checksum s) = false /\
  occurs " " (Checksum.url_encode_checksum s) = false /\
  Checksum.url_encode_checksum (Checksum.url_encode_checksum s)
  = Checksum.url_encode_checksum s /\
  length (Checksum.url_encode_checksum s)
  = (length s + 2 * count_char "=" s)%nat.
Proof.
  rewrite url_encode_checksum_idempotent, url_encode_checksum_escape.
  destruct (escape_clean s) as [H1 H2].
  repeat split; try assumption. apply escape_length.
Qed.

(** *** Variants that share a key *)

(** X2. Variants K and A sign under the same key and nothing marks which
    template a message follows: whenever the long key followed by the
    parameter spells the same text as the identifier, the shared code and
    the campus code, variant A over the parameter and variant K over the
    identifier and campus code return the same signature. *)
Theorem checksum_a_k_same_message (self : Checksum.checksum)
    (parameter identifier campus_code : string) (w : world)
    (Hmsg : Checksum.SECRET_KEY_LONG self ++ parameter
            = identifier ++ Checksum.SUPER_SECRET_CODE self ++ campus_code) :
  Checksum.checksum_a self parameter w
  = Checksum.checksum_k self identifier campus_code w.
Proof.
  unfold Checksum.checksum_a, Checksum.checksum_k, Checksum.get_timestamp, bind, ret.
  cbv beta iota.
  assert (E : Checksum.SECRET_KEY_LONG self ++ parameter ++ Checksum.strftime (now w)
              = identifier ++ Checksum.SUPER_SECRET_CODE self ++ campus_code
                ++ Checksum.strftime (now w)).
  { rewrite <- (append_assoc (Checksum.SECRET_KEY_LONG self)), Hmsg.
    rewrite !append_assoc. reflexivity. }
  rewrite E. reflexivity.
Qed.

Lemma checksum_a_k_same_message_witness :
  Checksum.checksum_a (Checksum.mkChecksum "k1" "k2" "long" "code") "codeHN"
    morning_early
  = Checksum.checksum_k (Checksum.mkChecksum "k1" "k2" "long" "code") "long" "HN"
      morning_early.
Proof.
  exact (checksum_a_k_same_message
           (Checksum.mkChecksum "k1" "k2" "long" "code") "codeHN" "long" "HN"
           morning_early eq_refl).
Defined.

(** *** The timestamp slot *)

Lemma ord_chr (n : Z) : 0 <= n < 256 -> ord (chr n) = n.
Proof.
  intros H. unfold ord, chr.
  rewrite N_ascii_embedding by lia. now rewrite Z2N.id by lia.
Qed.

Lemma digit_inj (a b : Z) :
  Checksum.digit a = Checksum.digit b -> a mod 10 = b mod 10.
Proof.
  unfold Checksum.digit. intros H. apply (f_equal ord) in H.
  pose proof (Z.mod_pos_bound a 10 ltac:(lia)).
  pose proof (Z.mod_pos_bound b 10 ltac:(lia)).
  rewrite !ord_chr in H by lia. lia.
Qed.

Lemma pad2_inj (a b : Z) :
  0 <= a < 100 -> 0 <= b < 100 -> Checksum.pad2 a = Checksum.pad2 b -> a = b.
Proof.
  intros Ha Hb H. unfold Checksum.pad2 in H.
  injection H as H1 H2. apply digit_inj in H1, H2.
  revert H1 H2. Z.div_mod_to_equations. lia.
Qed.

Lemma pad4_inj (a b : Z) :
  0 <= a < 10000 -> 0 <= b < 10000 -> Checksum.pad4 a = Checksum.pad4 b -> a = b.
Proof.
  intros Ha Hb H. unfold Checksum.pad4, Checksum.pad2 in H.
  injection H as H1 H2 H3 H4. apply digit_inj in H1, H2, H3, H4.
  revert H1 H2 H3 H4. Z.div_mod_to_equations. lia.
Qed.

(** X3. The timestamp slot has sixteen characters, and on clock readings
    with a four-digit year it names its hour: two readings with the same
    slot are in the same hour of the same day.  With C7's direction, the
    slot is shared exactly by the readings of one hour. *)
Theorem timestamp_slot_names_hour (t1 t2 : datetime)
    (H1 : valid_datetime t1) (H2 : valid_datetime t2) :
  length (Checksum.strftime t1) = 16%nat /\
  (Checksum.strftime t1 = Checksum.strftime t2 <-> same_hour t1 t2).
Proof.
  split; [reflexivity|]. split; [|apply strftime_same_hour].
  destruct H1 as (Hy1 & Hm1 & Hd1 & Hh1), H2 as (Hy2 & Hm2 & Hd2 & Hh2).
  unfold Checksum.strftime.
  change (Checksum.pad2 ?x) with
    (String (Checksum.digit (x / 10)) (String (Checksum.digit x) EmptyString)).
  unfold Checksum.pad4.
  change (Checksum.pad2 ?x) with
    (String (Checksum.digit (x / 10)) (String (Checksum.digit x) EmptyString)).
  cbn [append]. intros H.
  injection H as d1 d0 m1 m0 y3 y2 y1 y0 h1 h0.
  assert (Hd : Checksum.pad2 (day t1) = Checksum.pad2 (day t2))
    by (unfold Checksum.pad2; now rewrite d1, d0).
  assert (Hm : Checksum.pad2 (month t1) = Checksum.pad2 (month t2))
    by (unfold Checksum.pad2; now rewrite m1, m0).
  assert (Hh : Checksum.pad2 (hour t1) = Checksum.pad2 (hour t2))
    by (unfold Checksum.pad2; now rewrite h1, h0).
  assert (Hy : Checksum.pad4 (year t1) = Checksum.pad4 (year t2))
    by (unfold Checksum.pad4, Checksum.pad2; now rewrite y3, y2, y1, y0).
  apply pad2_inj in Hd, Hm, Hh; try lia. apply pad4_inj in Hy; try lia.
  repeat split; assumption.
Qed.

Lemma timestamp_slot_names_hour_witness :
  Checksum.strftime (now morning_early) = Checksum.strftime (now morning_late)
  <-> same_hour (now morning_early) (now morning_late).
Proof.
  exact (proj2 (timestamp_slot_names_hour (now morning_early) (now morning_late)
                  ltac:(unfold valid_datetime; cbn; lia)
                  ltac:(unfold valid_datetime; cbn; lia))).
Defined.

(** *** The shape of a signature *)

Lemma land_255_byte (a : Z) : byte (Z.land a 255).
Proof.
  unfold byte. change 255 with (Z.ones 8). rewrite Z.land_ones by lia.
  apply Z.mod_pos_bound. lia.
Qed.

Lemma lor_below (a b n : Z) :
  0 < n -> 0 <= a < 2 ^ n -> 0 <= b < 2 ^ n -> 0 <= Z.lor a b < 2 ^ n.
Proof.
  intros Hn Ha Hb.
  assert (Hnn : 0 <= Z.lor a b) by (apply Z.lor_nonneg; lia).
  split; [exact Hnn|].
  destruct (Z.eq_dec (Z.lor a b) 0) as [->|Hne]; [apply Z.pow_pos_nonneg; lia|].
  apply Z.log2_lt_pow2; [lia|].
  rewrite Z.log2_lor by lia.
  apply Z.max_lub_lt.
  - destruct (Z.eq_dec a 0) as [->|]; [cbn; lia | apply Z.log2_lt_pow2; lia].
  - destruct (Z.eq_dec b 0) as [->|]; [cbn; lia | apply Z.log2_lt_pow2; lia].
Qed.

(** The four six-bit groups of three bytes, and the groups of the last one
    or two bytes, are below 64. *)
Lemma sextet_high (x : Z) : byte x -> 0 <= Z.shiftr x 2 < 64.
Proof.
  unfold byte. intros H. rewrite Z.shiftr_div_pow2 by lia.
  change (2 ^ 2) with 4. Z.div_mod_to_equations. lia.
Qed.

Lemma sextet_low (z : Z) : 0 <= Z.land z 63 < 64.
Proof.
  change 63 with (Z.ones 6). rewrite Z.land_ones by lia.
  apply Z.mod_pos_bound. lia.
Qed.

Lemma sextet_second_part (x : Z) : 0 <= Z.shiftl (Z.land x 3) 4 < 64.
Proof.
  change 3 with (Z.ones 2). rewrite Z.land_ones by lia.
  rewrite Z.shiftl_mul_pow2 by lia. change (2 ^ 4) with 16. change (2 ^ 2) with 4.
  Z.div_mod_to_equations. lia.
Qed.

Lemma sextet_third_part (y : Z) : 0 <= Z.shiftl (Z.land y 15) 2 < 64.
Proof.
  change 15 with (Z.ones 4). rewrite Z.land_ones by lia.
  rewrite Z.shiftl_mul_pow2 by lia. change (2 ^ 4) with 16. change (2 ^ 2) with 4.
  Z.div_mod_to_equations. lia.
Qed.

Lemma sextet_second (x y : Z) :
  byte y -> 0 <= Z.lor (Z.shiftl (Z.land x 3) 4) (Z.shiftr y 4) < 64.
Proof.
  unfold byte. intros Hy. apply (lor_below _ _ 6); [lia | apply sextet_second_part |].
  rewrite Z.shiftr_div_pow2 by lia. change (2 ^ 4) with 16. change (2 ^ 6) with 64.
  Z.div_mod_to_equations. lia.
Qed.

Lemma sextet_third (y z : Z) :
  byte z -> 0 <= Z.lor (Z.shiftl (Z.land y 15) 2) (Z.shiftr z 6) < 64.
Proof.
  unfold byte. intros Hz. apply (lor_below _ _ 6); [lia | apply sextet_third_part |].
  rewrite Z.shiftr_div_pow2 by lia. change (2 ^ 6) with 64.
  Z.div_mod_to_equations. lia.
Qed.

(** A group below 64 is written as a character of the alphabet. *)
Lemma digit_base64_char (i : Z) :
  0 <= i < 64 -> base64_char (chr (Base64.digit i)) = true.
Proof.
  intros H. unfold Base64.digit.
  assert (Hn : (Z.to_nat i < 64)%nat) by lia.
  revert Hn. generalize (Z.to_nat i). intros n Hn.
  do 64 (destruct n as [|n]; [vm_compute; reflexivity|]).
  lia.
Qed.

Lemma base64_char_plain (c : ascii) :
  base64_char c = true -> Ascii.eqb "=" c = false /\ Ascii.eqb " " c = false.
Proof.
  destruct c as [[] [] [] [] [] [] [] []]; vm_compute; intros H;
    first [discriminate H | split; reflexivity].
Qed.

Lemma base64_text_plain (s : string) :
  all_chars base64_char s = true -> occurs "=" s = false /\ occurs " " s = false.
Proof.
  induction s as [|c s IH]; [split; reflexivity|].
  cbn [all_chars occurs]. intros H. apply andb_true_iff in H as [Hc Hs].
  destruct (base64_char_plain c Hc) as [E1 E2], (IH Hs) as [O1 O2].
  now rewrite E1, E2, O1, O2.
Qed.

Lemma escape_app (a b : string) : escape (a ++ b) = escape a ++ escape b.
Proof.
  induction a as [|c a IH]; [reflexivity|].
  cbn [append escape]. now rewrite IH, append_assoc.
Qed.

(** The base64 text of twenty bytes: twenty-seven characters of the
    alphabet and one padding sign. *)
Lemma generate_hmac_shape (key message : string) :
  exists body,
    Checksum.generate_hmac key message = body ++ "=" /\
    length body = 27%nat /\
    all_chars base64_char body = true.
Proof.
  unfold Checksum.generate_hmac, Hmac.hmac_sha1.
  generalize (Hmac.xor_with 92 (Hmac.block_key (encode_utf8 key))
                ++ Sha1.sha1 (Hmac.xor_with 54 (Hmac.block_key (encode_utf8 key))
                              ++ encode_utf8 message))%list.
  intros outer. unfold Sha1.sha1.
  generalize (fold_left Sha1.compress
                (Sha1.blocks (List.length (Sha1.pad outer)) (Sha1.pad outer))
                Sha1.init).
  intros st. unfold Sha1.digest_of.
  cbn [Sha1.be_bytes app Base64.b64encode decode_ascii].
  eexists (String _ (String _ (String _ (String _ (String _ (String _ (String _
          (String _ (String _ (String _ (String _ (String _ (String _ (String _
          (String _ (String _ (String _ (String _ (String _ (String _ (String _
          (String _ (String _ (String _ (String _ (String _ (String _
           EmptyString))))))))))))))))))))))))))).
  split; [reflexivity|]. split; [reflexivity|].
  cbn [all_chars].
  rewrite !digit_base64_char;
    auto using sextet_high, sextet_low, sextet_second, sextet_third,
      sextet_third_part, land_255_byte.
Qed.

(** X4. Whatever the secrets, the inputs and the clock, a signature of each
    variant has thirty characters: twenty-seven characters of the base64
    alphabet followed by [%3d].  The padding sign is the only character the
    escape step ever rewrites, and its rule for spaces is never used. *)
Theorem signature_shape (self : Checksum.checksum)
    (identifier campus_code parameter : string) (w : world) :
  signature_text (value (Checksum.checksum_k self identifier campus_code) w) /\
  signature_text (value (Checksum.checksum_y self identifier campus_code) w) /\
  signature_text (value (Checksum.checksum_a self parameter) w).
Proof.
  assert (H : forall key message,
    signature_text (Checksum.url_encode_checksum (Checksum.generate_hmac key message))).
  { intros key message.
    destruct (generate_hmac_shape key message) as (body & Hs & Hl & Hc).
    exists body. rewrite url_encode_checksum_escape, Hs, escape_app.
    destruct (base64_text_plain body Hc) as [O1 O2].
    rewrite (escape_fixed body O1 O2).
    repeat split; try assumption.
    rewrite length_append, Hl. reflexivity. }
  unfold value, Checksum.checksum_k, Checksum.checksum_y, Checksum.checksum_a,
    Checksum.get_timestamp, bind, ret; cbn [fst].
  split; [apply H | split; apply H].
Qed.

End SignerFacts.

(** ** Further properties of the client *)

Module ClientFacts.
Import Text Py World Spec Client Derived Scenarios ClientProofs.

(** *** The calls an operation makes *)

(** X5. Every operation makes exactly one HTTP call, whatever the transport
    answers; the signing operations read the clock once, before the call,
    and [get_all_active_campus] and [get_version] do not read it.  The call
    is a GET, except for [add_rate], which POSTs with its six values in the
    query string and no body. *)
Theorem operation_trace_shape (self : Api.API) (op : operation) (w : world) :
  exists c,
    trace (perform self op) w
    = ((if reads_clock op then [ClockRead] else []) ++ [HttpCall c])%list /\
    match op with
    | AddRate _ _ _ _ _ =>
        exists url p, c = SessionPost url (Some p) (JsonBody None) /\
                      List.length p = 6%nat
    | _ => is_get c = true
    end.
Proof.
  unfold trace.
  destruct op; cbn [perform reads_clock]; open_method;
    eexists; (split; [reflexivity|]);
    first [reflexivity | eexists; eexists; split; reflexivity].
Qed.

(** *** The envelope *)

Lemma envelope_of_cases (r : response) :
  (exists b, envelope_of r
             = [("success", PBool b);
                ("status_code", PInt (status_code r));
                ("data", json_data_of r);
                ("raw_response", PStr (text r))] /\
             Api.classify (status_code r) (json_data_of r) = Ok b) \/
  (exists e, envelope_of r = Api.failure_envelope e /\
             Api.classify (status_code r) (json_data_of r) = Raise e).
Proof.
  unfold envelope_of.
  destruct (Api.classify (status_code r) (json_data_of r)) as [b|e]; eauto.
Qed.

Lemma classify_true (status : Z) (v : pyval) :
  Api.classify status v = Ok true -> status = 200.
Proof.
  unfold Api.classify.
  destruct (Api.has_code v) as [[|]|e]; [| |discriminate].
  - destruct (status =? 200) eqn:E; [intros _; now apply Z.eqb_eq|discriminate].
  - intros H. injection H as H. now apply Z.eqb_eq.
Qed.

(** X6. Every envelope an operation returns has the fields [success] (a
    boolean), [status_code] and [data], and exactly one of [error] and
    [raw_response]; the envelope has an [error] exactly when its
    [status_code] is [None]. *)
Theorem envelope_fields (self : Api.API) (op : operation) (w : world) :
  let envelope := value (perform self op) w in
  (exists b, lookup "success" envelope = Some (PBool b)) /\
  has_key "status_code" envelope = true /\
  has_key "data" envelope = true /\
  has_key "error" envelope = negb (has_key "raw_response" envelope) /\
  (has_key "error" envelope = true <-> lookup "status_code" envelope = Some PNone).
Proof.
  cbv zeta. destruct (perform_spec self op w) as (c & _ & ->).
  unfold respond.
  destruct (send w c) as [r|e].
  - destruct (envelope_of_cases r) as [(b & -> & _)|(e & -> & _)].
    + repeat split; try reflexivity; [eexists; reflexivity| |]; discriminate.
    + repeat split; try reflexivity. eexists; reflexivity.
  - repeat split; try reflexivity. eexists; reflexivity.
Qed.

(** X7. An operation reports success only for HTTP status 200: when the
    envelope's [success] is true, its [status_code] is 200, it carries the
    raw text of the response, and it has no [error]. *)
Theorem success_means_status_200 (self : Api.API) (op : operation) (w : world)
    (H : lookup "success" (value (perform self op) w) = Some (PBool true)) :
  lookup "status_code" (value (perform self op) w) = Some (PInt 200) /\
  has_key "raw_response" (value (perform self op) w) = true /\
  has_key "error" (value (perform self op) w) = false.
Proof.
  destruct (perform_spec self op w) as (c & _ & Hv). rewrite Hv in *.
  unfold respond in *.
  destruct (send w c) as [r|e]; [|discriminate H].
  destruct (envelope_of_cases r) as [(b & E & Hc)|(e & E & _)];
    rewrite E in *; [|discriminate H].
  cbn in H. injection H as ->.
  apply classify_true in Hc. rewrite Hc. repeat split.
Qed.

Lemma success_means_status_200_witness :
  lookup "status_code" (value (perform api0 GetVersion) (answering accepted))
  = Some (PInt 200) /\
  has_key "raw_response" (value (perform api0 GetVersion) (answering accepted)) = true /\
  has_key "error" (value (perform api0 GetVersion) (answering accepted)) = false.
Proof.
  exact (success_means_status_200 api0 GetVersion (answering accepted) eq_refl).
Defined.

(** X8. For a response the transport returned, the envelope of
    [_make_request] has an [error] field, and no [raw_response], exactly
    when the parsed body is a true boolean, a number other than zero, or,
    under status 200, a list with the element "code" or a string that
    contains "code"; for every other body, such as any JSON object, it has
    [raw_response] and no [error]. *)
Theorem error_field_on_returned_response (method url : string)
    (p : option params) (data : option dict) (use_json : bool) (w : world)
    (c : http_call) (r : response)
    (Hcall : In c (calls (trace (Api._make_request method url p data use_json) w)))
    (Hsend : send w c = Ok r) :
  let envelope := value (Api._make_request method url p data use_json) w in
  has_key "error" envelope = code_test_raises (status_code r) (json_data_of r) /\
  has_key "raw_response" envelope
  = negb (code_test_raises (status_code r) (json_data_of r)).
Proof.
  cbv zeta. rewrite (make_request_value _ _ _ _ _ _ _ Hcall).
  unfold respond. rewrite Hsend.
  pose proof (classify_raises_iff (status_code r) (json_data_of r)) as Hiff.
  destruct (envelope_of_cases r) as [(b & -> & Hc)|(e & -> & Hc)].
  - destruct (code_test_raises (status_code r) (json_data_of r)).
    + destruct (proj2 Hiff eq_refl) as [e He]. rewrite He in Hc. discriminate.
    + split; reflexivity.
  - rewrite (proj1 Hiff (ex_intro _ e Hc)). split; reflexivity.
Qed.

Lemma error_field_on_returned_response_witness :
  has_key "error"
    (value (Api._make_request "GET" "https://api.example/GetVersion" None None true)
           (answering accepted)) = false /\
  has_key "raw_response"
    (value (Api._make_request "GET" "https://api.example/GetVersion" None None true)
           (answering accepted)) = true.
Proof.
  exact (error_field_on_returned_response
           "GET" "https://api.example/GetVersion" None None true
           (answering accepted) (SessionGet "https://api.example/GetVersion" None)
           accepted (or_introl eq_refl) eq_refl).
Defined.

(** X9. A body that Python counts as false (an empty object or list, zero,
    false, the empty string) is never asked for a [code]: the envelope keeps
    that body under [data] and its flag is the status test alone. *)
Theorem falsy_body_envelope (method url : string)
    (p : option params) (data : option dict) (use_json : bool) (w : world)
    (c : http_call) (r : response) (v : pyval)
    (Hcall : In c (calls (trace (Api._make_request method url p data use_json) w)))
    (Hsend : send w c = Ok r)
    (Hjson : json r = Ok v)
    (Hfalsy : truthy v = false) :
  value (Api._make_request method url p data use_json) w
  = [("success", PBool (status_code r =? 200));
     ("status_code", PInt (status_code r));
     ("data", v);
     ("raw_response", PStr (text r))].
Proof.
  rewrite (make_request_value _ _ _ _ _ _ _ Hcall).
  unfold respond. rewrite Hsend.
  unfold envelope_of, json_data_of, Api.classify, Api.has_code.
  now rewrite Hjson, Hfalsy.
Qed.

Lemma falsy_body_envelope_witness :
  value (Api._make_request "GET" "https://api.example/GetVersion" None None true)
        (answering empty_object)
  = [("success", PBool true);
     ("status_code", PInt 200);
     ("data", PDict []);
     ("raw_response", PStr "{}")].
Proof.
  exact (falsy_body_envelope
           "GET" "https://api.example/GetVersion" None None true
           (answering empty_object) (SessionGet "https://api.example/GetVersion" None)
           empty_object (PDict []) (or_introl eq_refl) eq_refl eq_refl eq_refl).
Defined.

(** *** Witnesses for the lemmas on every operation *)

Definition timed_out : exn := mkExn "ReadTimeout" "Read timed out.".

Lemma checksum_parameter_presence_witness :
  has_key "checksum"
    (call_params (SessionGet "https://api.example/GetWeekByDate"
                    (Some [("date", "1709776800")])))
  = false.
Proof.
  exact (checksum_parameter_presence api0 (GetWeekByDate "1709776800")
           morning_early
           (SessionGet "https://api.example/GetWeekByDate"
              (Some [("date", "1709776800")]))
           (or_introl eq_refl)).
Defined.

Lemma transport_failure_envelope_witness :
  value (perform api0 GetVersion) (failing timed_out)
  = Api.failure_envelope timed_out.
Proof.
  exact (proj1 (transport_failure_envelope api0 GetVersion (failing timed_out)
                  timed_out (fun c _ => eq_refl))).
Defined.

Lemma success_flag_every_operation_witness :
  lookup "success" (value (perform api0 GetVersion) (answering denied))
  = Some (PBool false).
Proof.
  exact (proj1 (success_flag_every_operation api0 GetVersion (answering denied)
                  denied [("code", PStr "400"); ("message", PStr "denied")]
                  (fun c _ => eq_refl) eq_refl)).
Defined.

(** *** Construction *)

Lemma truthy_opt_some (x : option string) :
  truthy_opt x = true -> exists v, x = Some v /\ v <> "".
Proof.
  destruct x as [v|]; cbn [truthy_opt]; [|discriminate].
  intros H. exists v. split; [reflexivity|].
  apply negb_true_iff in H. now apply String.eqb_neq.
Qed.

(** X13. A client that [API.__init__] returns is fully configured for
    signing: its authentication key and its four secrets are the values the
    environment has at construction and none of them is empty.  Its two
    base URLs are the class attributes, read when the module was imported,
    set or not, whatever the environment holds at construction. *)
Theorem constructed_client_is_configured (cls : Api.API_class)
    (session : list (string * string)) (w : world) (api : Api.API)
    (H : value (Api.__init__ cls session) w = Ok api) :
  let env := environment w in
  let c := Api.checksum api in
  (getenv env "AUTHEN_KEY" = Some (Api.AUTHEN_KEY api) /\ Api.AUTHEN_KEY api <> "") /\
  (getenv env "SECRET_KEY_MAIN" = Some (Checksum.SECRET_KEY_MAIN c) /\
   Checksum.SECRET_KEY_MAIN c <> "") /\
  (getenv env "SECRET_KEY_ALT" = Some (Checksum.SECRET_KEY_ALT c) /\
   Checksum.SECRET_KEY_ALT c <> "") /\
  (getenv env "SECRET_KEY_LONG" = Some (Checksum.SECRET_KEY_LONG c) /\
   Checksum.SECRET_KEY_LONG c <> "") /\
  (getenv env "SUPER_SECRET_CODE" = Some (Checksum.SUPER_SECRET_CODE c) /\
   Checksum.SUPER_SECRET_CODE c <> "") /\
  Api.BASE_URL api = Api.cls_BASE_URL cls /\
  Api.GOOGLE_AUTH_URL api = Api.cls_GOOGLE_AUTH_URL cls.
Proof.
  cbv zeta. unfold value in H. rewrite api_init_spec in H.
  destruct (truthy_opt (getenv (environment w) "AUTHEN_KEY")) eqn:Ek;
    cbn [negb] in H; [|discriminate H].
  unfold Checksum.__init__ in H. cbn [forallb] in H.
  destruct (truthy_opt (getenv (environment w) "SECRET_KEY_MAIN")) eqn:E1;
    cbn [andb negb fst] in H; [|discriminate H].
  destruct (truthy_opt (getenv (environment w) "SECRET_KEY_ALT")) eqn:E2;
    cbn [andb negb fst] in H; [|discriminate H].
  destruct (truthy_opt (getenv (environment w) "SECRET_KEY_LONG")) eqn:E3;
    cbn [andb negb fst] in H; [|discriminate H].
  destruct (truthy_opt (getenv (environment w) "SUPER_SECRET_CODE")) eqn:E4;
    cbn [andb negb fst] in H; [|discriminate H].
  apply truthy_opt_some in Ek as (k & Ek & Hk), E1 as (v1 & E1 & H1),
    E2 as (v2 & E2 & H2), E3 as (v3 & E3 & H3), E4 as (v4 & E4 & H4).
  rewrite Ek, E1, E2, E3, E4 in *. cbn [format_opt fst] in H.
  injection H as <-. cbn [Api.AUTHEN_KEY Api.checksum Api.BASE_URL
    Api.GOOGLE_AUTH_URL Checksum.SECRET_KEY_MAIN Checksum.SECRET_KEY_ALT
    Checksum.SECRET_KEY_LONG Checksum.SUPER_SECRET_CODE].
  repeat split; assumption.
Qed.

(** The module is imported with no base URL in the environment and the
    client is constructed after the URL was set: the client has the
    construction-time key and no base URL. *)
Lemma constructed_client_is_configured_witness :
  getenv (environment constructed_late) "BASE_URL" = Some "https://late.example" /\
  getenv (environment constructed_late) "AUTHEN_KEY"
  = Some (Api.AUTHEN_KEY client_without_url) /\
  Api.BASE_URL client_without_url = None.
Proof.
  pose proof (constructed_client_is_configured
                (Api.class_body (environment without_base_url)) fresh_session
                constructed_late client_without_url eq_refl) as H.
  cbv zeta in H.
  exact (conj eq_refl
           (conj (proj1 (proj1 H))
                 (proj1 (proj2 (proj2 (proj2 (proj2 (proj2 H)))))))).
Defined.

(** *** What an operation does not depend on *)

(** X14. The authentication key the client was configured with is never
    sent and never signed: an operation does the same whatever the client's
    [AUTHEN_KEY] is (the token in a request is the caller's argument).  An
    operation uses one base URL only: [get_required_survey] does the same
    whatever [BASE_URL] is, and every other operation does the same
    whatever [GOOGLE_AUTH_URL] is. *)
Theorem unused_configuration (self : Api.API) (op : operation)
    (key : string) (url : option string) :
  perform (Api.mkAPI (Api.BASE_URL self) (Api.GOOGLE_AUTH_URL self) key
             (Api.checksum self) (Api.session_headers self)) op
  = perform self op /\
  match op with
  | GetRequiredSurvey _ =>
      perform (Api.mkAPI url (Api.GOOGLE_AUTH_URL self) (Api.AUTHEN_KEY self)
                 (Api.checksum self) (Api.session_headers self)) op
      = perform self op
  | _ =>
      perform (Api.mkAPI (Api.BASE_URL self) url (Api.AUTHEN_KEY self)
                 (Api.checksum self) (Api.session_headers self)) op
      = perform self op
  end.
Proof. destruct self, op; split; reflexivity. Qed.

(** X15. The two operations that do not sign, [get_all_active_campus] and
    [get_version], never touch the signer: two clients with the same base
    URL, whatever their secrets, at any two times, make the same call and,
    from transports that answer alike, return the same envelope.
    ([get_week_by_date] sends no checksum either, but it runs the signer, so
    it is not among them.) *)
Theorem unsigned_operations_ignore_secrets (self1 self2 : Api.API)
    (op : operation) (w1 w2 : world)
    (Hop : reads_clock op = false)
    (Hurl : Api.BASE_URL self1 = Api.BASE_URL self2)
    (Hsend : forall c, send w1 c = send w2 c) :
  trace (perform self1 op) w1 = trace (perform self2 op) w2 /\
  value (perform self1 op) w1 = value (perform self2 op) w2.
Proof.
  unfold trace, value.
  destruct op; try discriminate Hop; cbn [perform]; open_method;
    rewrite ?make_request_get; cbn [fst snd]; unfold respond;
    rewrite Hurl, Hsend; split; reflexivity.
Qed.

Lemma unsigned_operations_ignore_secrets_witness :
  trace (perform api0 GetVersion) morning_early
  = trace (perform
             (Api.mkAPI (Some "https://api.example") None "other"
                (Checksum.mkChecksum "a" "b" "c" "d") [])
             GetVersion) morning_late /\
  value (perform api0 GetVersion) morning_early
  = value (perform
             (Api.mkAPI (Some "https://api.example") None "other"
                (Checksum.mkChecksum "a" "b" "c" "d") [])
             GetVersion) morning_late.
Proof.
  exact (unsigned_operations_ignore_secrets api0
           (Api.mkAPI (Some "https://api.example") None "other"
              (Checksum.mkChecksum "a" "b" "c" "d") [])
           GetVersion morning_early morning_late
           eq_refl eq_refl (fun _ => eq_refl)).
Defined.

(** *** The username of [get_required_survey] *)

Lemma lower_char_idem (c : ascii) : lower_char (lower_char c) = lower_char c.
Proof. destruct c as [[] [] [] [] [] [] [] []]; reflexivity. Qed.

Lemma lower_idem (s : string) : lower (lower s) = lower s.
Proof.
  induction s as [|c s IH]; [reflexivity|].
  cbn [lower]. now rewrite lower_char_idem, IH.
Qed.

Lemma rstrip_idem (s : string) : rstrip (rstrip s) = rstrip s.
Proof.
  induction s as [|c s IH]; [reflexivity|].
  cbn [rstrip]. destruct (rstrip s) as [|d r] eqn:E.
  - destruct (isspace c) eqn:Ec; [reflexivity|].
    cbn [rstrip]. now rewrite Ec.
  - cbn [rstrip] in *. now rewrite IH.
Qed.

Lemma lstrip_starts_clean (s : string) : starts_clean (lstrip s) = true.
Proof.
  induction s as [|c s IH]; [reflexivity|].
  cbn [lstrip]. destruct (isspace c) eqn:Ec; [exact IH|].
  cbn [starts_clean]. now rewrite Ec.
Qed.

Lemma rstrip_starts_clean (s : string) :
  starts_clean s = true -> starts_clean (rstrip s) = true.
Proof.
  destruct s as [|c s]; [reflexivity|].
  cbn [starts_clean rstrip]. intros Hc.
  destruct (rstrip s); [|exact Hc].
  apply negb_true_iff in Hc. rewrite Hc. cbn [starts_clean]. now rewrite Hc.
Qed.

Lemma lstrip_clean (s : string) : starts_clean s = true -> lstrip s = s.
Proof.
  destruct s as [|c s]; [reflexivity|].
  cbn [starts_clean lstrip]. intros Hc. apply negb_true_iff in Hc. now rewrite Hc.
Qed.

Lemma strip_idem (s : string) : strip (strip s) = strip s.
Proof.
  unfold strip.
  rewrite (lstrip_clean (rstrip (lstrip s)))
    by apply rstrip_starts_clean, lstrip_starts_clean.
  apply rstrip_idem.
Qed.

(** X16. The username [get_required_survey] signs and sends is a normal
    form: lower-casing or trimming it again changes nothing, so the
    operation does for the normal form, and for any spelling of the
    username that differs in case or in surrounding white space, exactly
    what it does for the username. *)
Theorem survey_username_normal_form (self : Api.API) (username : string) :
  let normal := strip (lower username) in
  lower normal = normal /\
  strip normal = normal /\
  Api.get_required_survey self normal = Api.get_required_survey self username /\
  Api.get_required_survey self (lower username)
  = Api.get_required_survey self username /\
  Api.get_required_survey self (strip username)
  = Api.get_required_survey self username.
Proof.
  cbv zeta.
  assert (H1 : lower (strip (lower username)) = strip (lower username))
    by now rewrite <- strip_lower, lower_idem.
  assert (H2 : strip (strip (lower username)) = strip (lower username))
    by apply strip_idem.
  split; [exact H1|]. split; [exact H2|].
  unfold Api.get_required_survey.
  rewrite H1, H2, lower_idem.
  rewrite (strip_lower (strip username)), strip_idem, <- strip_lower.
  repeat split.
Qed.

(** *** The method argument of [_make_request] *)

(** X17. [_make_request] reads its method without regard to case.  For a
    method that spells GET it makes the GET call and ignores [data] and
    [use_json]; for one that spells POST it does what it does for "POST",
    with [data] as the JSON body when [use_json] is set and as the form
    body otherwise. *)
Theorem method_dispatch (method url : string) (p : option params)
    (data : option dict) (use_json : bool) (w : world) :
  (upper method = "GET" ->
   Api._make_request method url p data use_json w
   = Api._make_request "GET" url p None true w /\
   calls (trace (Api._make_request method url p data use_json) w)
   = [SessionGet url p]) /\
  (upper method = "POST" ->
   Api._make_request method url p data use_json w
   = Api._make_request "POST" url p data use_json w /\
   calls (trace (Api._make_request method url p data use_json) w)
   = [SessionPost url p (if use_json then JsonBody data else DataBody data)]).
Proof.
  unfold trace. rewrite !make_request_spec. unfold dispatch.
  split; intros ->; cbn [String.eqb Ascii.eqb Bool.eqb upper]; split; reflexivity.
Qed.

Lemma method_dispatch_witness :
  Api._make_request "get" "https://api.example/GetVersion" None
    (Some [("ignored", PNone)]) false (answering accepted)
  = Api._make_request "GET" "https://api.example/GetVersion" None None true
      (answering accepted) /\
  calls (trace (Api._make_request "get" "https://api.example/GetVersion" None
                  (Some [("ignored", PNone)]) false) (answering accepted))
  = [SessionGet "https://api.example/GetVersion" None].
Proof.
  exact (proj1 (method_dispatch "get" "https://api.example/GetVersion" None
                  (Some [("ignored", PNone)]) false (answering accepted))
               eq_refl).
Defined.

(** *** The caller's token and campus code *)

(** X18. The one request of an operation carries the caller's token under
    [Authen] and the caller's campus code under [campusCode], each exactly
    as given; the four operations that take neither send neither. *)
Theorem forwarded_token_and_campus (self : Api.API) (op : operation) (w : world) :
  map (fun c => lookup "Authen" (call_params c)) (calls (trace (perform self op) w))
  = [authen_of op] /\
  map (fun c => lookup "campusCode" (call_params c))
      (calls (trace (perform self op) w))
  = [campus_of op].
Proof.
  unfold trace.
  destruct op; cbn [perform authen_of campus_of]; open_method;
    split; reflexivity.
Qed.

End ClientFacts.
